(** * Markdown-to-Notion: the company-table extractor

    A shallow embedding of [parse_markdown_table_to_objects] and of the
    [CompanyData] model it fills, as found (twice, verbatim up to the wording
    of the printed messages) in [camel_markitdown_client.py] and
    [streamlit_markitdown_app.py].

    Python [str] values are modelled as [string]; a character is a code point
    below 256.  A [dict] with [str] keys is a [gmap string _].  What the
    program prints or logs is threaded through explicitly as a list of
    [RowIssue] values, in the order of emission. *)

From Stdlib Require Import Ascii String List Arith Lia Bool.
From stdpp Require Import base option list strings gmap fin_maps.

(** ** Python string primitives *)

Module PyStr.

(** [str.isspace] on one character (code points below 256): TAB, LF, VT,
    FF, CR, the separators 0x1c-0x1f, SPACE, NEL (0x85) and NBSP (0xa0). *)
Definition is_space (c : ascii) : bool :=
  let n := nat_of_ascii c in
  ((9 <=? n) && (n <=? 13)) || ((28 <=? n) && (n <=? 32))
  || (n =? 133) || (n =? 160).

(** [str.lower] on one character: A-Z, and the Latin-1 capitals
    0xc0-0xde except the multiplication sign 0xd7. *)
Definition lower_char (c : ascii) : ascii :=
  let n := nat_of_ascii c in
  if ((65 <=? n) && (n <=? 90))
     || ((192 <=? n) && (n <=? 222) && negb (n =? 215))
  then ascii_of_nat (n + 32) else c.

Fixpoint lower (s : string) : string :=
  match s with
  | EmptyString => EmptyString
  | String c s' => String (lower_char c) (lower s')
  end.

(** [not s] for a string [s]. *)
Definition is_empty (s : string) : bool :=
  match s with EmptyString => true | String _ _ => false end.

Fixpoint lstrip (s : string) : string :=
  match s with
  | EmptyString => EmptyString
  | String c s' => if is_space c then lstrip s' else s
  end.

Fixpoint rstrip (s : string) : string :=
  match s with
  | EmptyString => EmptyString
  | String c s' =>
      let r := rstrip s' in
      if is_space c && is_empty r then EmptyString else String c r
  end.

(** [s.strip()] *)
Definition strip (s : string) : string := rstrip (lstrip s).

(** [s.startswith(p)] *)
Fixpoint startswith (p s : string) : bool :=
  match p, s with
  | EmptyString, _ => true
  | String a p', String b s' => if ascii_dec a b then startswith p' s' else false
  | String _ _, EmptyString => false
  end.

(** [s.endswith(p)] *)
Fixpoint endswith (p s : string) : bool :=
  if string_dec s p then true
  else match s with
       | EmptyString => false
       | String _ s' => endswith p s'
       end.

(** [s.split(sep)] for a one-character separator (every call site of the
    program splits on a single character).  The result is never empty. *)
Fixpoint split (sep : ascii) (s : string) : list string :=
  match s with
  | EmptyString => [EmptyString]
  | String c s' =>
      if ascii_dec c sep then EmptyString :: split sep s'
      else match split sep s' with
           | [] => [String c EmptyString]
           | x :: xs => String c x :: xs
           end
  end.

(** [s.replace(a, b)] for one-character [a] and [b]. *)
Fixpoint replace (a b : ascii) (s : string) : string :=
  match s with
  | EmptyString => EmptyString
  | String c s' => String (if ascii_dec c a then b else c) (replace a b s')
  end.

(** [l[1:-1]] *)
Definition slice_1_m1 {A} (l : list A) : list A := removelast (tail l).

(** [sep.join(l)], used to write documents down line by line. *)
Fixpoint join (sep : ascii) (l : list string) : string :=
  match l with
  | [] => EmptyString
  | [x] => x
  | x :: xs => (x +:+ String sep (join sep xs))%stdpp
  end.

End PyStr.

Import PyStr.

Definition LF : ascii := "010"%char.
Definition PIPE : ascii := "|"%char.
Definition COMMA : ascii := ","%char.

(** ** Python values reaching the model

    The extractor hands [None] or a [str] to every field; [split_tags] also
    provides for a [list].  List items are restricted to [str] here, for
    which [str(item)] is [item] itself. *)

Inductive PyVal :=
| PyNone
| PyStr (s : string)
| PyList (l : list string).

(** ** The [CompanyData] model (pydantic [BaseModel]) *)

Record CompanyData := mkCompanyData {
  Company : string;
  Company_Website : option string;
  YC_Link : option string;
  Short_Description : string;
  Tags : option (list string);
  Location : option string;
  Founder_Link_1 : option string;
  Founder_Link_2 : option string;
  Founder_Link_3 : option string
}.

(** The [type] of the error pydantic gives for a text that is refused as a
    URL: the text does not parse, breaks the syntax, is too long, or has a
    scheme that is not allowed. *)
Inductive UrlError :=
  url_parsing | url_syntax_violation | url_too_long | url_scheme.

(** The [type] of one entry of a pydantic [ValidationError]. *)
Inductive ErrorKind :=
  missing | string_type | url_type | url_error (why : UrlError).

(** One entry of a [ValidationError]: the field ([loc]) and the error type. *)
Definition FieldError : Type := string * ErrorKind.

(** Outcome of validating a value: the value, or the errors collected. *)
Definition Validated (A : Type) : Type := A + list FieldError.

(** pydantic validates every field and reports all failures together, in
    field order: errors accumulate instead of stopping at the first one. *)
Definition vap {A B} (f : Validated (A -> B)) (x : Validated A) : Validated B :=
  match f, x with
  | inl g, inl a => inl (g a)
  | inl _, inr e => inr e
  | inr e, inl _ => inr e
  | inr e1, inr e2 => inr (e1 ++ e2)
  end.

Notation "f <&> x" := (vap f x) (at level 52, left associativity).

(** The record of an outcome, if one was constructed. *)
Definition accepted {A} (r : Validated A) : option A :=
  match r with inl a => Some a | inr _ => None end.

(** The errors of an outcome. *)
Definition errors {A} (r : Validated A) : list FieldError :=
  match r with inl _ => [] | inr e => e end.

(** [split_tags], the [mode='before'] validator of [Tags]. *)
Definition split_tags (v : PyVal) : option (list string) :=
  match v with
  | PyStr v =>
      if String.eqb (lower v) "nan" then None
      else Some (strip <$> List.filter (fun tag => negb (is_empty (strip tag)))
                                       (split COMMA v))
  | PyList v =>
      Some (strip <$> List.filter (fun item => negb (is_empty (strip item))) v)
  | PyNone => None
  end.

(** [clean_url], the [mode='before'] validator of the five URL fields. *)
Definition clean_url (v : PyVal) : PyVal :=
  match v with
  | PyStr s =>
      let v_stripped := strip s in
      if String.eqb (lower v_stripped) "nan" || is_empty v_stripped
      then PyNone else v
  | _ => v
  end.

(** The spellings of the sentinel. *)
Definition nan_spellings : list string :=
  ["nan"; "naN"; "nAn"; "nAN"; "Nan"; "NaN"; "NAn"; "NAN"].

(** Tag normalisation in the specification's words: each entry trimmed,
    then the entries left empty dropped. *)
Definition trimmed_nonempty (entries : list string) : list string :=
  List.filter (fun entry => negb (is_empty entry)) (strip <$> entries).


Section Model.

(** pydantic's [HttpUrl] validation of a [str] is library code: it is a
    parameter, returning the normalised URL text or the type of the error
    it reports. *)
Variable HttpUrl : string -> string + UrlError.

(** A field declared [name: str]. *)
Definition required_str (name : string) (kwargs : gmap string PyVal)
  : Validated string :=
  match kwargs !! name with
  | None => inr [(name, missing)]
  | Some (PyStr s) => inl s
  | Some _ => inr [(name, string_type)]
  end.

(** A field declared [name: Optional[str] = None]. *)
Definition optional_str (name : string) (kwargs : gmap string PyVal)
  : Validated (option string) :=
  match kwargs !! name with
  | None | Some PyNone => inl None
  | Some (PyStr s) => inl (Some s)
  | Some (PyList _) => inr [(name, string_type)]
  end.

(** A field declared [name: Optional[HttpUrl] = None], behind [clean_url].
    A default is not validated, so [clean_url] only sees supplied values. *)
Definition optional_url (name : string) (kwargs : gmap string PyVal)
  : Validated (option string) :=
  match kwargs !! name with
  | None => inl None
  | Some v =>
      match clean_url v with
      | PyNone => inl None
      | PyStr s =>
          match HttpUrl s with
          | inl u => inl (Some u)
          | inr why => inr [(name, url_error why)]
          end
      | PyList _ => inr [(name, url_type)]
      end
  end.

(** [Tags: Optional[List[str]] = None], behind [split_tags], whose result
    is always [None] or a list of [str]. *)
Definition optional_tags (name : string) (kwargs : gmap string PyVal)
  : Validated (option (list string)) :=
  match kwargs !! name with
  | None => inl None
  | Some v => inl (split_tags v)
  end.

(** The constructor called with keyword arguments [kwargs]: keys that
    name no field are ignored. *)
Definition CompanyData_new (kwargs : gmap string PyVal) : Validated CompanyData :=
  inl mkCompanyData
    <&> required_str "Company" kwargs
    <&> optional_url "Company_Website" kwargs
    <&> optional_url "YC_Link" kwargs
    <&> required_str "Short_Description" kwargs
    <&> optional_tags "Tags" kwargs
    <&> optional_str "Location" kwargs
    <&> optional_url "Founder_Link_1" kwargs
    <&> optional_url "Founder_Link_2" kwargs
    <&> optional_url "Founder_Link_3" kwargs.

(** ** The extractor *)

(** The two copies of the function differ only in what they report. *)
Inductive Frontend := Camel | Streamlit.

(** What the function prints (Camel) or logs (Streamlit):
    - [TableNotFound]: "... table header starting with '| Company |' not found";
    - [SeparatorMissing]: "... separator line not found or invalid";
    - [ColumnCountMismatch line expected got row]: "Skipping row (line ..)
      due to column count mismatch. Expected .., got ... Row: '..'";
    - [RowValidationFailed line row e]: "Error validating ... row ..: '..'.
      Error: .."; the Streamlit copy leaves the line number out. *)
Inductive RowIssue :=
| TableNotFound
| SeparatorMissing
| ColumnCountMismatch (line expected got : nat) (row : string)
| RowValidationFailed (line : option nat) (row : string) (e : list FieldError).

(** The list being returned and what has been reported so far. *)
Record Extraction := mkExtraction {
  companies : list CompanyData;
  issues : list RowIssue
}.

Definition report (i : RowIssue) (st : Extraction) : Extraction :=
  mkExtraction (companies st) (issues st ++ [i]).

Definition append (c : CompanyData) (st : Extraction) : Extraction :=
  mkExtraction (companies st ++ [c]) (issues st).

(** [enumerate(l)], counting from [i]. *)
Fixpoint enumerate_from {A} (i : nat) (l : list A) : list (nat * A) :=
  match l with
  | [] => []
  | x :: xs => (i, x) :: enumerate_from (S i) xs
  end.

Definition enumerate {A} (l : list A) : list (nat * A) := enumerate_from 0 l.

(** The first loop: index of the first line whose stripped text starts
    with the marker; [None] for the sentinel [-1]. *)
Fixpoint find_header_from (i : nat) (lines : list string) : option nat :=
  match lines with
  | [] => None
  | line :: rest =>
      if startswith "| Company |" (strip line) then Some i
      else find_header_from (S i) rest
  end.

Definition find_header (lines : list string) : option nat :=
  find_header_from 0 lines.

(** [[h.strip().replace(' ', '_') for h in line.split('|')[1:-1]]] *)
Definition parse_header (line : string) : list string :=
  (fun h => replace " "%char "_"%char (strip h)) <$> slice_1_m1 (split PIPE line).

(** [v if v.lower() != 'nan' else None] *)
Definition cell_value (v : string) : PyVal :=
  if String.eqb (lower v) "nan" then PyNone else PyStr v.

(** The dictionary filled by [for h, v in zip(header, values)]. *)
Definition fill_row_data (row_data : gmap string PyVal)
    (cells : list (string * string)) : gmap string PyVal :=
  fold_left (fun d '(h, v) => <[h := cell_value v]> d) cells row_data.

Definition make_row_data (header values : list string) : gmap string PyVal :=
  fill_row_data ∅ (zip header values).

Definition row_line (fe : Frontend) (n : nat) : option nat :=
  match fe with Camel => Some n | Streamlit => None end.

(** One turn of the main loop. *)
Definition process_line (fe : Frontend) (header : list string)
    (header_line_index : nat) (st : Extraction) (entry : nat * string)
  : Extraction :=
  let '(line_number, line_content) := entry in
  let line_stripped := strip line_content in
  if negb (startswith "|" line_stripped) || negb (endswith "|" line_stripped)
  then st
  else
    let values := strip <$> slice_1_m1 (split PIPE line_stripped) in
    if negb (length values =? length header)
    then report (ColumnCountMismatch (header_line_index + 2 + line_number + 1)
                   (length header) (length values) line_stripped) st
    else
      match CompanyData_new (make_row_data header values) with
      | inl company => append company st
      | inr e =>
          report (RowValidationFailed
                    (row_line fe (header_line_index + 2 + line_number + 1))
                    line_stripped e) st
      end.

(** The function after [lines] has been computed. *)
Definition parse_lines (fe : Frontend) (lines : list string) : Extraction :=
  match find_header lines with
  | None => mkExtraction [] [TableNotFound]
  | Some header_line_index =>
      let header := parse_header (default "" (lines !! header_line_index)) in
      if (length lines <=? header_line_index + 1)
         || negb (startswith "| ---"
                    (strip (default "" (lines !! (header_line_index + 1)))))
      then mkExtraction [] [SeparatorMissing]
      else
        fold_left (process_line fe header header_line_index)
                  (enumerate (drop (header_line_index + 2) lines))
                  (mkExtraction [] [])
  end.

Definition document_lines (markdown_content : string) : list string :=
  split LF (strip markdown_content).

Definition parse_markdown_table_to_objects (fe : Frontend)
    (markdown_content : string) : Extraction :=
  parse_lines fe (document_lines markdown_content).

(** ** Notions used to state the properties *)

(** The test on a line of the first loop, and the negation of the test
    that makes the main loop skip a line. *)
Definition is_header_line (line : string) : bool :=
  startswith "| Company |" (strip line).

Definition is_table_row (line : string) : bool :=
  startswith "|" (strip line) && endswith "|" (strip line).

Definition is_separator (line : string) : bool :=
  startswith "| ---" (strip line).

(** The [values] of a line. *)
Definition row_values (line : string) : list string :=
  strip <$> slice_1_m1 (split PIPE (strip line)).

(** The cell that ends up under the key [name] of [row_data]: the one in
    the last column so named. *)
Fixpoint cell_of (header values : list string) (name : string) : option string :=
  match header, values with
  | h :: header', v :: values' =>
      match cell_of header' values' name with
      | Some x => Some x
      | None => if String.eqb h name then Some v else None
      end
  | _, _ => None
  end.

Definition url_fields : list string :=
  ["Company_Website"; "YC_Link"; "Founder_Link_1"; "Founder_Link_2";
   "Founder_Link_3"].

Definition required_fields : list string := ["Company"; "Short_Description"].

(** The text of the required field [name] of a record. *)
Definition required_text (name : string) (company : CompanyData) : string :=
  if String.eqb name "Company" then Company company
  else Short_Description company.

Definition nothing : Extraction := mkExtraction [] [].

(** Records and reports of one extraction followed by those of another. *)
Definition followed_by (a b : Extraction) : Extraction :=
  mkExtraction (companies a ++ companies b) (issues a ++ issues b).

(** The main loop over [rows], the first of which is entry [start] of the
    enumeration, from the state [st]. *)
Definition run_rows (fe : Frontend) (header : list string)
    (header_line_index start : nat) (rows : list string) (st : Extraction)
  : Extraction :=
  fold_left (process_line fe header header_line_index)
            (enumerate_from start rows) st.

(** A report with its line number mapped through [f]. *)
Definition renumber (f : nat -> nat) (i : RowIssue) : RowIssue :=
  match i with
  | ColumnCountMismatch line expected got row =>
      ColumnCountMismatch (f line) expected got row
  | RowValidationFailed line row e => RowValidationFailed (f <$> line) row e
  | other => other
  end.

Definition renumbered (f : nat -> nat) (st : Extraction) : Extraction :=
  mkExtraction (companies st) (renumber f <$> issues st).

(** What each of [rows] contributes on its own, the first of them being
    entry [start] of the enumeration. *)
Definition row_outcomes (fe : Frontend) (header : list string)
    (header_line_index start : nat) (rows : list string) : list Extraction :=
  process_line fe header header_line_index nothing <$> enumerate_from start rows.

(** The contributions put one after the other. *)
Definition gather (outcomes : list Extraction) : Extraction :=
  foldr followed_by nothing outcomes.

End Model.

(** A stand-in for [HttpUrl] used to run the extractor on concrete
    documents: it accepts the strings that begin with [http://] or
    [https://] and returns them unchanged; it refuses a text that begins
    with [ftp://] for its scheme, and any other text as not parsing. *)
Definition sample_HttpUrl (s : string) : string + UrlError :=
  if startswith "http://" s || startswith "https://" s then inl s
  else if startswith "ftp://" s then inr url_scheme
  else inr url_parsing.

(** The names of the fields of [CompanyData]. *)
Definition field_names : list string :=
  ["Company"; "Company_Website"; "YC_Link"; "Short_Description"; "Tags";
   "Location"; "Founder_Link_1"; "Founder_Link_2"; "Founder_Link_3"].

(** ** The helpers of [streamlit_markitdown_app.py] *)

(** [is_valid_uri_scheme]: [uri.startswith] of a tuple of four prefixes. *)
Definition is_valid_uri_scheme (uri : string) : bool :=
  startswith "http://" uri || startswith "https://" uri
  || startswith "file://" uri || startswith "data:" uri.

(** The rest of [s] after the prefix [p], if [s] starts with [p]. *)
Fixpoint after_prefix (p s : string) : option string :=
  match p, s with
  | EmptyString, _ => Some s
  | String a p', String b s' => if ascii_dec a b then after_prefix p' s' else None
  | String _ _, EmptyString => None
  end.

(** The greedy tail of the first pattern: the slashes consumed. *)
Fixpoint drop_slashes (s : string) : string :=
  match s with
  | EmptyString => EmptyString
  | String c s' => if ascii_dec c "/"%char then drop_slashes s' else s
  end.

(** The first substitution of [clean_filename]: a match of the pattern,
    anchored at the start, of one of the names [http], [https], [file],
    [data] (tried in this order), a colon and any number of slashes, is
    removed. *)
Definition remove_scheme (filename : string) : string :=
  match after_prefix "http:" filename with
  | Some rest => drop_slashes rest
  | None =>
  match after_prefix "https:" filename with
  | Some rest => drop_slashes rest
  | None =>
  match after_prefix "file:" filename with
  | Some rest => drop_slashes rest
  | None =>
  match after_prefix "data:" filename with
  | Some rest => drop_slashes rest
  | None => filename
  end end end end.

(** The character class of the second pattern: slash, colon, star, question
    mark, double quote, angle brackets, bar, percent, hash, ampersand and
    dot. *)
Definition is_problematic (c : ascii) : bool :=
  existsb (Ascii.eqb c)
    ["/"; ":"; "*"; "?"; "034"; "<"; ">"; "|"; "%"; "#"; "&"; "."]%char.

(** The second substitution: every maximal run of problematic characters
    becomes one underscore.  [in_run] tells that the previous character was
    part of a run. *)
Fixpoint replace_runs (in_run : bool) (s : string) : string :=
  match s with
  | EmptyString => EmptyString
  | String c s' =>
      if is_problematic c
      then if in_run then replace_runs true s'
           else String "_"%char (replace_runs true s')
      else String c (replace_runs false s')
  end.

(** [s[:n]] *)
Fixpoint first_chars (n : nat) (s : string) : string :=
  match n, s with
  | S n', String c s' => String c (first_chars n' s')
  | _, _ => EmptyString
  end.

Definition clean_filename (filename : string) : string :=
  let name := remove_scheme filename in
  let name := replace_runs false name in
  let name := first_chars 100 name in
  if is_empty name then "converted" else name.

(** A name made of unproblematic characters only. *)
Definition unproblematic (name : string) : Prop :=
  Forall (fun c => is_problematic c = false) (list_ascii_of_string name).

(** What the page shows while it settles the URI to convert. *)
Inductive UriNotice := AssumingLocalPath | InvalidScheme | NoInput.

(** The branch of the conversion handler for a typed URI (no uploaded
    file): the [final_uri] handed on, if any, and the notice shown. *)
Definition final_uri_of (input_uri : string) : option string * list UriNotice :=
  if is_empty input_uri then (None, [NoInput])
  else
    let final_uri := strip input_uri in
    if negb (is_valid_uri_scheme final_uri)
    then if startswith "/" final_uri
         then (Some ("file://" +:+ final_uri)%stdpp, [AssumingLocalPath])
         else (None, [InvalidScheme])
    else (Some final_uri, []).

(** ** The prompt of [camel_markitdown_client.py] *)

(** What one turn of [interactive_input_loop] makes of the line typed:
    leave, ask again, or query the agent for [formatted_uri]. *)
Inductive Turn := Leave | AskAgain | Query (formatted_uri : string).

Definition read_uri (typed : string) : Turn :=
  let uri := strip typed in
  if String.eqb (lower uri) "exit" then Leave
  else if is_empty uri then AskAgain
  else if startswith "/" uri && negb (startswith "file://" uri)
       then Query ("file://" +:+ uri)%stdpp
       else Query uri.

(** ** A row read cell by cell

    What the loop and the model make of a row, written out field by field;
    the properties below show that the code computes exactly this. *)

Section RowReading.

Variable HttpUrl : string -> string + UrlError.

(** The text supplied for the key [name]: the cell of the last column so
    named, unless it is the sentinel. *)
Definition supplied (header values : list string) (name : string)
  : option string :=
  match cell_of header values name with
  | Some v => if String.eqb (lower v) "nan" then None else Some v
  | None => None
  end.

(** A URL field: nothing for no text or empty text, the validated URL
    otherwise; the outer [None] stands for a refused URL. *)
Definition url_of (cell : option string) : option (option string) :=
  match cell with
  | None => Some None
  | Some v =>
      if is_empty v then Some None
      else match HttpUrl v with
           | inl u => Some (Some u)
           | inr _ => None
           end
  end.

Definition tags_of (cell : option string) : option (list string) :=
  (fun v => trimmed_nonempty (split COMMA v)) <$> cell.

(** The record of a row, or [None] when the row is to be rejected. *)
Definition row_record (header values : list string) : option CompanyData :=
  let cell := supplied header values in
  company ← cell "Company";
  website ← url_of (cell "Company_Website");
  yc ← url_of (cell "YC_Link");
  description ← cell "Short_Description";
  founder1 ← url_of (cell "Founder_Link_1");
  founder2 ← url_of (cell "Founder_Link_2");
  founder3 ← url_of (cell "Founder_Link_3");
  Some (mkCompanyData company website yc description (tags_of (cell "Tags"))
          (cell "Location") founder1 founder2 founder3).

(** The records a line after the separator adds to the result. *)
Definition line_records (header : list string) (line : string)
  : list CompanyData :=
  if is_table_row line && (length (row_values line) =? length header)
  then option_list (row_record header (row_values line))
  else [].

(** A report as the Streamlit copy words it: without the line number of a
    row that failed validation. *)
Definition without_line (i : RowIssue) : RowIssue :=
  match i with
  | RowValidationFailed _ row e => RowValidationFailed None row e
  | other => other
  end.

End RowReading.

(** ** Sample documents *)

Definition full_header : string :=
  "| Company | Company Website | YC Link | Short Description | Tags | Location | Founder Link 1 | Founder Link 2 | Founder Link 3 |".
Definition full_separator : string :=
  "| --- | --- | --- | --- | --- | --- | --- | --- | --- |".
Definition acme_row : string :=
  "| Acme | https://acme.com | https://ycombinator.com/acme | Widgets | b2b, saas | SF | https://x.com/a | | |".
Definition beta_row : string :=
  "| Beta | https://beta.io | NaN | Rockets | space | nan | | | |".
Definition bad_url_row : string :=
  "| Gamma | not-a-url | nan | Gadgets | hw | Oslo | | | |".

Definition acme : CompanyData :=
  mkCompanyData "Acme" (Some "https://acme.com")
    (Some "https://ycombinator.com/acme") "Widgets" (Some ["b2b"; "saas"])
    (Some "SF") (Some "https://x.com/a") None None.
Definition beta : CompanyData :=
  mkCompanyData "Beta" (Some "https://beta.io") None "Rockets" (Some ["space"])
    None None None None.

Definition small_header : string := "| Company | Short Description |".
Definition small_separator : string := "| --- | --- |".

Definition scenario1 : string :=
  join LF ["## W24"; ""; full_header; full_separator; acme_row].

Definition CR : ascii := "013"%char.

(** [scenario1] indented and with CR LF line ends. *)
Definition scenario1_crlf : string :=
  join LF ((fun line => "  " +:+ line +:+ String CR "")
             <$> ["## W24"; ""; full_header; full_separator; acme_row]).

Definition doc_no_table : string :=
  join LF ["# Notes"; ""; "| Name | Site |"; "| --- | --- |"; "| Acme | x |"].

Definition doc_no_separator : string :=
  join LF ["## W24"; full_header; ""; acme_row].

Definition doc_header_last : string := join LF ["## W24"; full_header; "  "].

(** Two blank lines, then a table whose first row has one cell and is
    written with blanks around it. *)
Definition doc_mismatch : string :=
  join LF [""; ""; small_header; small_separator; "  | x |  "; "| ok | fine |"].

Definition doc_bad_url : string :=
  join LF [full_header; full_separator; acme_row; bad_url_row; beta_row].

Definition doc_row_removed : string :=
  join LF [full_header; full_separator; acme_row; beta_row].

Definition doc_row_corrupted : string :=
  join LF [full_header; full_separator; acme_row; "| Gam"; beta_row].

Definition doc_empty_location : string :=
  join LF [full_header; full_separator;
           "| Acme | https://acme.com | | Widgets | b2b | | | | |"].

Definition doc_first_table : string :=
  join LF [full_header; full_separator; acme_row].

Definition doc_two_tables : string :=
  join LF [full_header; full_separator; acme_row; ""; "## S24";
           full_header; full_separator; beta_row].

Definition doc_empty_company : string :=
  join LF [small_header; small_separator; "|   | A company without a name |"].

(** * Properties *)

(** ** Strings *)

Section StringFacts.

Lemma is_empty_true s : is_empty s = true <-> s = "".
Proof. destruct s; simpl; split; congruence. Qed.

Lemma is_empty_false s : is_empty s = false <-> s <> "".
Proof. destruct s; simpl; split; congruence. Qed.

Lemma lstrip_space c s : is_space c = true -> lstrip (String c s) = lstrip s.
Proof. simpl. intros ->. reflexivity. Qed.

Lemma lstrip_nonspace c s : is_space c = false -> lstrip (String c s) = String c s.
Proof. simpl. intros ->. reflexivity. Qed.

Lemma rstrip_nonspace c s :
  is_space c = false -> rstrip (String c s) = String c (rstrip s).
Proof. simpl. intros ->. reflexivity. Qed.

Lemma lstrip_idem s : lstrip (lstrip s) = lstrip s.
Proof.
  induction s as [|c s IH]; [reflexivity|].
  simpl. destruct (is_space c) eqn:E; [exact IH|].
  simpl. rewrite E. reflexivity.
Qed.

Lemma rstrip_idem s : rstrip (rstrip s) = rstrip s.
Proof.
  induction s as [|c s IH]; [reflexivity|].
  simpl. destruct (is_space c && is_empty (rstrip s)) eqn:E; [reflexivity|].
  simpl. rewrite IH, E. reflexivity.
Qed.

(** A string that [rstrip] empties is emptied by [lstrip] too. *)
Lemma rstrip_empty_lstrip s : rstrip s = "" -> lstrip s = "".
Proof.
  induction s as [|c s IH]; [reflexivity|].
  simpl. destruct (is_space c) eqn:E; simpl.
  - destruct (is_empty (rstrip s)) eqn:R; [|discriminate].
    intros _. apply IH. apply is_empty_true, R.
  - discriminate.
Qed.

Lemma lstrip_empty_rstrip s : lstrip s = "" -> rstrip s = "".
Proof.
  induction s as [|c s IH]; [reflexivity|].
  simpl. destruct (is_space c) eqn:E; simpl; [|discriminate].
  intros H. rewrite (IH H). reflexivity.
Qed.

Lemma lstrip_rstrip s : lstrip (rstrip s) = rstrip (lstrip s).
Proof.
  induction s as [|c s IH]; [reflexivity|].
  simpl. destruct (is_space c) eqn:E; simpl.
  - destruct (is_empty (rstrip s)) eqn:R.
    + apply is_empty_true in R. rewrite (rstrip_empty_lstrip _ R). reflexivity.
    + simpl. rewrite E. exact IH.
  - rewrite !E. reflexivity.
Qed.

Lemma strip_idem s : strip (strip s) = strip s.
Proof.
  unfold strip. rewrite lstrip_rstrip, lstrip_idem, rstrip_idem. reflexivity.
Qed.

Lemma strip_space c s : is_space c = true -> strip (String c s) = strip s.
Proof. intros H. unfold strip. rewrite lstrip_space by exact H. reflexivity. Qed.

Lemma strip_empty : strip "" = "".
Proof. reflexivity. Qed.

(** Stripping depends on the left-stripped, and on the right-stripped, text. *)
Lemma strip_of_lstrip s t : lstrip s = lstrip t -> strip s = strip t.
Proof. unfold strip. intros ->. reflexivity. Qed.

Lemma strip_of_rstrip s t : rstrip s = rstrip t -> strip s = strip t.
Proof. unfold strip. rewrite <- !lstrip_rstrip. intros ->. reflexivity. Qed.

Lemma split_nonempty sep s : split sep s <> [].
Proof.
  destruct s as [|c s]; simpl; [discriminate|].
  destruct (ascii_dec c sep); [discriminate|].
  destruct (split sep s); discriminate.
Qed.

Lemma split_cons_sep sep s : split sep (String sep s) = "" :: split sep s.
Proof. simpl. destruct (ascii_dec sep sep); [reflexivity|congruence]. Qed.

Lemma split_cons_other sep c s :
  c <> sep ->
  exists x xs, split sep s = x :: xs /\ split sep (String c s) = String c x :: xs.
Proof.
  intros Hc. simpl. destruct (ascii_dec c sep); [contradiction|].
  destruct (split sep s) as [|x xs] eqn:E.
  - exfalso. exact (split_nonempty _ _ E).
  - exists x, xs. split; reflexivity.
Qed.

(** Every line of a left-stripped text is, up to stripping, a line of the
    text. *)
Lemma split_lstrip sep s l :
  l ∈ split sep (lstrip s) -> exists l', l' ∈ split sep s /\ lstrip l = lstrip l'.
Proof.
  induction s as [|c s IH]; intros Hl.
  - exists l. split; [exact Hl | reflexivity].
  - destruct (is_space c) eqn:E.
    + rewrite lstrip_space in Hl by exact E.
      destruct (IH Hl) as (l' & Hin & Heq).
      destruct (ascii_dec c sep) as [->|Hne].
      * exists l'. rewrite split_cons_sep. split; [right; exact Hin | exact Heq].
      * destruct (split_cons_other sep c s Hne) as (x & xs & Hs & Hcs).
        rewrite Hcs. rewrite Hs in Hin.
        apply elem_of_cons in Hin as [->|Hin].
        -- exists (String c x). split; [left|].
           rewrite lstrip_space by exact E. exact Heq.
        -- exists l'. split; [right; exact Hin | exact Heq].
    + rewrite lstrip_nonspace in Hl by exact E.
      exists l. split; [exact Hl | reflexivity].
Qed.

(** The lines of a right-stripped text are, up to right-stripping, the
    first lines of the text. *)
Lemma split_rstrip sep s :
  exists front rest,
    split sep s = front ++ rest /\
    Forall2 (fun l l' => rstrip l = rstrip l') (split sep (rstrip s)) front.
Proof.
  induction s as [|c s (front & rest & Hs & HF)].
  - exists [""], []. split; [reflexivity | repeat constructor].
  - cbn [rstrip].
    destruct (is_space c && is_empty (rstrip s)) eqn:E.
    + apply andb_true_iff in E as [Ec Er]. apply is_empty_true in Er.
      rewrite Er in HF. cbn [split] in HF.
      apply Forall2_cons_inv_l in HF as (f0 & fs & Hf0 & Hfs & ->).
      apply Forall2_nil_inv_l in Hfs as ->.
      destruct (ascii_dec c sep) as [->|Hne].
      * exists [""], (split sep s). rewrite split_cons_sep.
        split; [reflexivity | repeat constructor].
      * destruct (split_cons_other sep c s Hne) as (x & xs & Hx & Hcs).
        rewrite Hs in Hx. injection Hx as <- <-.
        exists [String c f0], rest. rewrite Hcs.
        split; [reflexivity|]. repeat constructor.
        cbn [rstrip]. rewrite <- Hf0, Ec. reflexivity.
    + destruct (ascii_dec c sep) as [->|Hne].
      * exists ("" :: front), rest. rewrite !split_cons_sep, Hs.
        split; [reflexivity|]. constructor; [reflexivity | exact HF].
      * destruct (split_cons_other sep c (rstrip s) Hne) as (y & ys & Hy & Hcy).
        rewrite Hcy. rewrite Hy in HF.
        apply Forall2_cons_inv_l in HF as (f0 & fs & Hf0 & Hfs & ->).
        destruct (split_cons_other sep c s Hne) as (x & xs & Hx & Hcs).
        rewrite Hs in Hx. injection Hx as <- <-.
        exists (String c f0 :: fs), rest. rewrite Hcs.
        split; [reflexivity|]. constructor; [|exact Hfs].
        cbn [rstrip]. rewrite Hf0. reflexivity.
Qed.

(** Every line of a stripped text is, up to stripping, a line of the text. *)
Lemma split_strip sep s l :
  l ∈ split sep (strip s) -> exists l', l' ∈ split sep s /\ strip l = strip l'.
Proof.
  unfold strip at 1. intros Hl.
  destruct (split_rstrip sep (lstrip s)) as (front & rest & Hs & HF).
  apply list_elem_of_lookup in Hl as [i Hi].
  destruct (Forall2_lookup_l _ _ _ _ _ HF Hi) as (l1 & H1 & R1).
  assert (Hin : l1 ∈ split sep (lstrip s)).
  { rewrite Hs. apply elem_of_app. left.
    apply list_elem_of_lookup. exists i. exact H1. }
  destruct (split_lstrip sep s l1 Hin) as (l2 & H2 & R2).
  exists l2. split; [exact H2|].
  rewrite (strip_of_rstrip _ _ R1). apply strip_of_lstrip, R2.
Qed.

End StringFacts.

(** ** The main loop *)

Section LoopFacts.

Variable HttpUrl : string -> string + UrlError.
Variable fe : Frontend.
Variable header : list string.
Variable idx : nat.

Local Abbreviation step := (process_line HttpUrl fe header idx).
Local Abbreviation run := (run_rows HttpUrl fe header idx).

Lemma followed_by_nothing_l st : followed_by nothing st = st.
Proof. destruct st; reflexivity. Qed.

Lemma followed_by_nothing_r st : followed_by st nothing = st.
Proof. destruct st; unfold followed_by; simpl. rewrite !app_nil_r. reflexivity. Qed.

Lemma followed_by_assoc a b c :
  followed_by (followed_by a b) c = followed_by a (followed_by b c).
Proof. unfold followed_by; simpl. rewrite !app_assoc. reflexivity. Qed.

(** One turn only adds to what has been accumulated. *)
Lemma process_line_from st entry :
  step st entry = followed_by st (step nothing entry).
Proof.
  destruct entry as [n line]. unfold process_line.
  destruct (negb _ || negb _); [symmetry; apply followed_by_nothing_r|].
  unfold followed_by, report, append; simpl.
  destruct (negb _); [rewrite app_nil_r; reflexivity|].
  destruct (CompanyData_new _ _); simpl; rewrite app_nil_r; reflexivity.
Qed.

Lemma run_rows_from start rows st :
  run start rows st = followed_by st (run start rows nothing).
Proof.
  unfold run_rows. revert start st.
  induction rows as [|r rows IH]; intros start st; cbn [fold_left enumerate_from].
  - symmetry. apply followed_by_nothing_r.
  - rewrite IH. rewrite (IH _ (step nothing _)).
    rewrite <- followed_by_assoc. f_equal. apply process_line_from.
Qed.

Lemma enumerate_from_app {A} i (l1 l2 : list A) :
  enumerate_from i (l1 ++ l2) =
  enumerate_from i l1 ++ enumerate_from (i + length l1) l2.
Proof.
  revert i. induction l1 as [|x l1 IH]; intros i; simpl.
  - rewrite Nat.add_0_r. reflexivity.
  - rewrite IH. replace (S i + length l1) with (i + S (length l1)) by lia.
    reflexivity.
Qed.

Lemma run_rows_app start rows1 rows2 :
  run start (rows1 ++ rows2) nothing =
  followed_by (run start rows1 nothing)
              (run (start + length rows1) rows2 nothing).
Proof.
  unfold run_rows. rewrite enumerate_from_app, fold_left_app.
  apply run_rows_from.
Qed.

Lemma run_rows_cons start r rows :
  run start (r :: rows) nothing =
  followed_by (step nothing (start, r)) (run (S start) rows nothing).
Proof. unfold run_rows. simpl. apply run_rows_from. Qed.

(** Moving a row changes nothing but the line number it is reported at. *)
Lemma process_line_renumber k n line :
  step nothing (k + n, line) = renumbered (Nat.add k) (step nothing (n, line)).
Proof.
  assert (E : idx + 2 + (k + n) + 1 = k + (idx + 2 + n + 1)) by lia.
  unfold process_line. rewrite E.
  destruct (negb _ || negb _); [reflexivity|].
  destruct (negb _); [reflexivity|].
  destruct (CompanyData_new _ _); [reflexivity|].
  destruct fe; reflexivity.
Qed.

Lemma renumbered_followed_by f a b :
  renumbered f (followed_by a b) = followed_by (renumbered f a) (renumbered f b).
Proof. unfold renumbered, followed_by; simpl. rewrite fmap_app. reflexivity. Qed.

Lemma run_rows_renumber k start rows :
  run (k + start) rows nothing = renumbered (Nat.add k) (run start rows nothing).
Proof.
  revert start. induction rows as [|r rows IH]; intros start.
  - reflexivity.
  - rewrite !run_rows_cons, renumbered_followed_by.
    rewrite process_line_renumber. f_equal.
    replace (S (k + start)) with (k + S start) by lia. apply IH.
Qed.

Lemma gather_app l1 l2 : gather (l1 ++ l2) = followed_by (gather l1) (gather l2).
Proof.
  induction l1 as [|x l1 IH]; cbn [gather foldr app].
  - symmetry. apply followed_by_nothing_l.
  - fold (gather (l1 ++ l2)). fold (gather l1). rewrite IH.
    symmetry. apply followed_by_assoc.
Qed.

(** The loop gathers what the rows contribute one by one. *)
Lemma run_rows_gather start rows :
  run start rows nothing = gather (row_outcomes HttpUrl fe header idx start rows).
Proof.
  revert start. induction rows as [|r rows IH]; intros start.
  - reflexivity.
  - rewrite run_rows_cons, IH. reflexivity.
Qed.

Lemma row_outcomes_app start rows1 rows2 :
  row_outcomes HttpUrl fe header idx start (rows1 ++ rows2) =
  row_outcomes HttpUrl fe header idx start rows1
  ++ row_outcomes HttpUrl fe header idx (start + length rows1) rows2.
Proof. unfold row_outcomes. rewrite enumerate_from_app, fmap_app. reflexivity. Qed.

Lemma row_outcomes_shift start rows :
  row_outcomes HttpUrl fe header idx (S start) rows =
  renumbered S <$> row_outcomes HttpUrl fe header idx start rows.
Proof.
  unfold row_outcomes. revert start.
  induction rows as [|r rows IH]; intros start; [reflexivity|].
  cbn [enumerate_from fmap list_fmap]. f_equal; [|apply IH].
  apply (process_line_renumber 1 start r).
Qed.

End LoopFacts.

(** ** Locating the table *)

Section TableFacts.

Variable HttpUrl : string -> string + UrlError.
Variable fe : Frontend.

Lemma find_header_from_none i lines :
  Forall (fun l => is_header_line l = false) lines ->
  find_header_from i lines = None.
Proof.
  intros H. revert i. induction H as [|l lines Hl _ IH]; intros i; cbn [find_header_from app length].
  - reflexivity.
  - unfold is_header_line in Hl. rewrite Hl. apply IH.
Qed.

Lemma find_header_from_none_inv i lines :
  find_header_from i lines = None ->
  Forall (fun l => is_header_line l = false) lines.
Proof.
  revert i. induction lines as [|l lines IH]; intros i; cbn [find_header_from app length].
  - constructor.
  - destruct (startswith "| Company |" (strip l)) eqn:E; [discriminate|].
    intros H. constructor; [exact E | exact (IH _ H)].
Qed.

Lemma find_header_from_first i pre hdr rest :
  Forall (fun l => is_header_line l = false) pre ->
  is_header_line hdr = true ->
  find_header_from i (pre ++ hdr :: rest) = Some (i + length pre).
Proof.
  intros Hpre Hhdr. revert i.
  induction Hpre as [|l pre Hl _ IH]; intros i; cbn [find_header_from app length].
  - unfold is_header_line in Hhdr. rewrite Hhdr. f_equal. lia.
  - unfold is_header_line in Hl. rewrite Hl, IH. f_equal. lia.
Qed.

(** The index found is that of the first header line. *)
Lemma find_header_from_some i lines k :
  find_header_from i lines = Some k ->
  exists pre hdr rest,
    lines = pre ++ hdr :: rest /\ k = i + length pre /\
    Forall (fun l => is_header_line l = false) pre /\
    is_header_line hdr = true.
Proof.
  revert i. induction lines as [|l lines IH]; intros i; cbn [find_header_from]; [discriminate|].
  destruct (startswith "| Company |" (strip l)) eqn:E.
  - intros [= <-]. exists [], l, lines. cbn [app length].
    repeat split; [lia | constructor | exact E].
  - intros H. destruct (IH _ H) as (pre & hdr & rest & -> & -> & Hpre & Hhdr).
    exists (l :: pre), hdr, rest. cbn [app length].
    repeat split; [lia | constructor; assumption | exact Hhdr].
Qed.

(** With the header at the end of [pre] and a separator after it, the
    function is the main loop over the remaining lines. *)
Lemma parse_lines_table pre hdr sep rows :
  Forall (fun l => is_header_line l = false) pre ->
  is_header_line hdr = true ->
  is_separator sep = true ->
  parse_lines HttpUrl fe (pre ++ hdr :: sep :: rows) =
  run_rows HttpUrl fe (parse_header hdr) (length pre) 0 rows nothing.
Proof.
  intros Hpre Hhdr Hsep. unfold parse_lines, find_header.
  rewrite (find_header_from_first 0 pre hdr (sep :: rows) Hpre Hhdr).
  cbn [Nat.add].
  assert (H0 : (pre ++ hdr :: sep :: rows) !! length pre = Some hdr)
    by (apply list_lookup_middle; reflexivity).
  assert (H1 : (pre ++ hdr :: sep :: rows) !! (length pre + 1) = Some sep).
  { replace (pre ++ hdr :: sep :: rows) with ((pre ++ [hdr]) ++ sep :: rows)
      by (rewrite <- app_assoc; reflexivity).
    apply list_lookup_middle. rewrite length_app. reflexivity. }
  assert (H2 : drop (length pre + 2) (pre ++ hdr :: sep :: rows) = rows).
  { replace (pre ++ hdr :: sep :: rows) with ((pre ++ [hdr; sep]) ++ rows)
      by (rewrite <- app_assoc; reflexivity).
    replace (length pre + 2) with (length (pre ++ [hdr; sep]))
      by (rewrite length_app; reflexivity).
    apply drop_app_length. }
  assert (L : (length (pre ++ hdr :: sep :: rows) <=? length pre + 1) = false).
  { apply Nat.leb_gt. rewrite length_app. cbn [length]. lia. }
  rewrite H0, H1, H2, L. cbn [default from_option orb id].
  unfold is_separator in Hsep. rewrite Hsep. reflexivity.
Qed.

End TableFacts.

(** ** The sentinel *)

Lemma lower_char_n c : lower_char c = "n"%char -> c = "n"%char \/ c = "N"%char.
Proof.
  destruct c as [[] [] [] [] [] [] [] []]; vm_compute; intros H;
    first [discriminate H | left; reflexivity | right; reflexivity].
Qed.

Lemma lower_char_a c : lower_char c = "a"%char -> c = "a"%char \/ c = "A"%char.
Proof.
  destruct c as [[] [] [] [] [] [] [] []]; vm_compute; intros H;
    first [discriminate H | left; reflexivity | right; reflexivity].
Qed.

(** [v.lower() == 'nan'] holds of the eight spellings and of nothing else. *)
Lemma lower_nan_iff v : lower v = "nan" <-> v ∈ nan_spellings.
Proof.
  split.
  - destruct v as [|c1 [|c2 [|c3 [|c4 v]]]]; cbn [lower]; try discriminate.
    intros [= H1 H2 H3].
    apply lower_char_n in H1, H3. apply lower_char_a in H2.
    unfold nan_spellings.
    destruct H1 as [-> | ->], H2 as [-> | ->], H3 as [-> | ->];
      repeat first [left | right].
  - unfold nan_spellings. intros H.
    repeat (apply elem_of_cons in H as [->|H]; [reflexivity|]).
    inversion H.
Qed.

(** ** The model *)

Section ModelFacts.

Variable HttpUrl : string -> string + UrlError.

Lemma errors_vap {A B} (f : Validated (A -> B)) (x : Validated A) :
  errors (f <&> x) = errors f ++ errors x.
Proof.
  destruct f, x; simpl; rewrite ?app_nil_r; reflexivity.
Qed.

Lemma vap_inl_inv {A B} (f : Validated (A -> B)) (x : Validated A) b :
  f <&> x = inl b -> exists g a, f = inl g /\ x = inl a /\ b = g a.
Proof.
  destruct f as [g|], x as [a|]; simpl; try discriminate.
  intros [= <-]. exists g, a. repeat split.
Qed.

(** Acceptance is acceptance of every field, with the values found. *)
Lemma CompanyData_new_inl kwargs r :
  CompanyData_new HttpUrl kwargs = inl r <->
  required_str "Company" kwargs = inl (Company r) /\
  optional_url HttpUrl "Company_Website" kwargs = inl (Company_Website r) /\
  optional_url HttpUrl "YC_Link" kwargs = inl (YC_Link r) /\
  required_str "Short_Description" kwargs = inl (Short_Description r) /\
  optional_tags "Tags" kwargs = inl (Tags r) /\
  optional_str "Location" kwargs = inl (Location r) /\
  optional_url HttpUrl "Founder_Link_1" kwargs = inl (Founder_Link_1 r) /\
  optional_url HttpUrl "Founder_Link_2" kwargs = inl (Founder_Link_2 r) /\
  optional_url HttpUrl "Founder_Link_3" kwargs = inl (Founder_Link_3 r).
Proof.
  unfold CompanyData_new. split.
  - intros H.
    repeat (apply vap_inl_inv in H as (? & ? & H & ? & ?)).
    injection H as <-. subst. simpl. repeat split; assumption.
  - intros (-> & -> & -> & -> & -> & -> & -> & -> & ->).
    destruct r; reflexivity.
Qed.

(** The errors reported are those of the fields, in field order. *)
Lemma CompanyData_new_errors kwargs :
  errors (CompanyData_new HttpUrl kwargs) =
  errors (required_str "Company" kwargs)
  ++ errors (optional_url HttpUrl "Company_Website" kwargs)
  ++ errors (optional_url HttpUrl "YC_Link" kwargs)
  ++ errors (required_str "Short_Description" kwargs)
  ++ errors (optional_tags "Tags" kwargs)
  ++ errors (optional_str "Location" kwargs)
  ++ errors (optional_url HttpUrl "Founder_Link_1" kwargs)
  ++ errors (optional_url HttpUrl "Founder_Link_2" kwargs)
  ++ errors (optional_url HttpUrl "Founder_Link_3" kwargs).
Proof.
  unfold CompanyData_new. rewrite !errors_vap. simpl.
  rewrite <- !app_assoc. reflexivity.
Qed.

(** A reported error rejects the row. *)
Lemma CompanyData_new_rejected kwargs err :
  err ∈ errors (CompanyData_new HttpUrl kwargs) ->
  exists e, CompanyData_new HttpUrl kwargs = inr e /\ err ∈ e.
Proof.
  destruct (CompanyData_new HttpUrl kwargs) as [r|e]; simpl.
  - intros H. inversion H.
  - intros H. exists e. split; [reflexivity | exact H].
Qed.

(** The dictionary of a row, key by key. *)
Lemma fill_row_data_lookup header values name row_data :
  fill_row_data row_data (zip header values) !! name =
  match cell_of header values name with
  | Some v => Some (cell_value v)
  | None => row_data !! name
  end.
Proof.
  revert values row_data.
  induction header as [|h header IH]; intros [|v values] row_data;
    try reflexivity.
  cbn [zip zip_with fill_row_data fold_left cell_of].
  change (fold_left _ (zip header values) ?d)
    with (fill_row_data d (zip header values)).
  rewrite IH. destruct (cell_of header values name); [reflexivity|].
  destruct (String.eqb_spec h name) as [->|Hne].
  - apply lookup_insert_eq.
  - apply lookup_insert_ne, Hne.
Qed.

Lemma make_row_data_lookup header values name :
  make_row_data header values !! name = cell_value <$> cell_of header values name.
Proof.
  unfold make_row_data. rewrite fill_row_data_lookup.
  destruct (cell_of header values name); reflexivity.
Qed.

Lemma cell_of_elem header values name v :
  cell_of header values name = Some v -> v ∈ values.
Proof.
  revert values. induction header as [|h header IH]; intros [|x values];
    cbn [cell_of]; try discriminate.
  destruct (cell_of header values name) eqn:E.
  - intros [= <-]. right. apply (IH _ E).
  - destruct (String.eqb h name); [|discriminate]. intros [= <-]. left.
Qed.

(** The cells of a line are stripped. *)
Lemma row_values_stripped line v : v ∈ row_values line -> strip v = v.
Proof.
  unfold row_values. intros H. apply list_elem_of_fmap in H as (x & -> & _).
  apply strip_idem.
Qed.

(** A supplied URL text that [clean_url] keeps and [HttpUrl] refuses. *)
Lemma optional_url_invalid name kwargs v why :
  kwargs !! name = Some (PyStr v) ->
  strip v = v -> v <> "" -> lower v <> "nan" -> HttpUrl v = inr why ->
  optional_url HttpUrl name kwargs = inr [(name, url_error why)].
Proof.
  intros Hk Hs Hv Hn Hu. unfold optional_url, clean_url. rewrite Hk, Hs.
  apply String.eqb_neq in Hn. rewrite Hn.
  apply is_empty_false in Hv. rewrite Hv. cbn [orb]. rewrite Hu. reflexivity.
Qed.

(** An error on a URL field is an error of the record. *)
Lemma url_error_reported name kwargs err :
  name ∈ url_fields ->
  err ∈ errors (optional_url HttpUrl name kwargs) ->
  err ∈ errors (CompanyData_new HttpUrl kwargs).
Proof.
  intros Hname Herr. rewrite CompanyData_new_errors.
  unfold url_fields in Hname.
  repeat (apply elem_of_cons in Hname as [->|Hname]);
    [..|inversion Hname];
    rewrite !elem_of_app; tauto.
Qed.

(** Every error of a field names that field, and a field that fails reports
    something. *)
Lemma required_str_errors name kwargs :
  Forall (fun err => err.1 = name) (errors (required_str name kwargs)).
Proof.
  unfold required_str. destruct (kwargs !! name) as [[| |]|]; repeat constructor.
Qed.

Lemma optional_str_errors name kwargs :
  Forall (fun err => err.1 = name) (errors (optional_str name kwargs)).
Proof.
  unfold optional_str. destruct (kwargs !! name) as [[| |]|]; repeat constructor.
Qed.

Lemma optional_url_errors name kwargs :
  Forall (fun err => err.1 = name) (errors (optional_url HttpUrl name kwargs)).
Proof.
  unfold optional_url. destruct (kwargs !! name) as [v|]; [|constructor].
  destruct (clean_url v); [constructor| |repeat constructor].
  destruct (HttpUrl s); repeat constructor.
Qed.

Lemma optional_tags_errors name kwargs : errors (optional_tags name kwargs) = [].
Proof. unfold optional_tags. destruct (kwargs !! name); reflexivity. Qed.

Lemma required_str_no_errors name kwargs :
  errors (required_str name kwargs) = [] -> exists a, required_str name kwargs = inl a.
Proof.
  unfold required_str. destruct (kwargs !! name) as [[| |]|]; try discriminate.
  intros _. eexists. reflexivity.
Qed.

Lemma optional_str_no_errors name kwargs :
  errors (optional_str name kwargs) = [] -> exists a, optional_str name kwargs = inl a.
Proof.
  unfold optional_str. destruct (kwargs !! name) as [[| |]|]; try discriminate;
    intros _; eexists; reflexivity.
Qed.

Lemma optional_url_no_errors name kwargs :
  errors (optional_url HttpUrl name kwargs) = [] ->
  exists a, optional_url HttpUrl name kwargs = inl a.
Proof.
  unfold optional_url. destruct (kwargs !! name) as [v|]; [|eexists; reflexivity].
  destruct (clean_url v); [eexists; reflexivity| |discriminate].
  destruct (HttpUrl s); [eexists; reflexivity|discriminate].
Qed.

Lemma optional_tags_inl name kwargs :
  exists a, optional_tags name kwargs = inl a.
Proof. unfold optional_tags. destruct (kwargs !! name); eexists; reflexivity. Qed.

(** A construction without errors is a record. *)
Lemma CompanyData_new_no_errors kwargs :
  errors (CompanyData_new HttpUrl kwargs) = [] ->
  exists company, CompanyData_new HttpUrl kwargs = inl company.
Proof.
  rewrite CompanyData_new_errors. intros H.
  repeat (apply app_eq_nil in H as [? H]).
  destruct (required_str_no_errors "Company" kwargs) as [a1 E1]; [assumption|].
  destruct (optional_url_no_errors "Company_Website" kwargs) as [a2 E2]; [assumption|].
  destruct (optional_url_no_errors "YC_Link" kwargs) as [a3 E3]; [assumption|].
  destruct (required_str_no_errors "Short_Description" kwargs) as [a4 E4]; [assumption|].
  destruct (optional_tags_inl "Tags" kwargs) as [a5 E5].
  destruct (optional_str_no_errors "Location" kwargs) as [a6 E6]; [assumption|].
  destruct (optional_url_no_errors "Founder_Link_1" kwargs) as [a7 E7]; [assumption|].
  destruct (optional_url_no_errors "Founder_Link_2" kwargs) as [a8 E8]; [assumption|].
  destruct (optional_url_no_errors "Founder_Link_3" kwargs) as [a9 E9]; [assumption|].
  exists (mkCompanyData a1 a2 a3 a4 a5 a6 a7 a8 a9).
  unfold CompanyData_new. rewrite E1, E2, E3, E4, E5, E6, E7, E8, E9. reflexivity.
Qed.

(** The field an error of a record names is one of the nine. *)
Lemma CompanyData_new_error_fields kwargs :
  Forall (fun err =>
            err ∈ errors (required_str "Company" kwargs)
            \/ err ∈ errors (required_str "Short_Description" kwargs)
            \/ err.1 ∈ ["Company_Website"; "YC_Link"; "Location";
                        "Founder_Link_1"; "Founder_Link_2"; "Founder_Link_3"])
         (errors (CompanyData_new HttpUrl kwargs)).
Proof.
  rewrite CompanyData_new_errors, optional_tags_errors.
  repeat apply Forall_app_2; try constructor.
  - apply Forall_forall. intros err H. left. exact H.
  - eapply Forall_impl; [apply optional_url_errors|].
    intros err ->. right. right. left.
  - eapply Forall_impl; [apply optional_url_errors|].
    intros err ->. right. right. right. left.
  - apply Forall_forall. intros err H. right. left. exact H.
  - eapply Forall_impl; [apply optional_str_errors|].
    intros err ->. right. right. do 2 right. left.
  - eapply Forall_impl; [apply optional_url_errors|].
    intros err ->. right. right. do 3 right. left.
  - eapply Forall_impl; [apply optional_url_errors|].
    intros err ->. right. right. do 4 right. left.
  - eapply Forall_impl; [apply optional_url_errors|].
    intros err ->. right. right. do 5 right. left.
Qed.

(** ** A key holding [None] against a key left out *)











(** ** Tags *)

Lemma filter_then_strip entries :
  strip <$> List.filter (fun entry => negb (is_empty (strip entry))) entries
  = trimmed_nonempty entries.
Proof.
  unfold trimmed_nonempty.
  induction entries as [|x entries IH]; [reflexivity|].
  cbn [List.filter fmap list_fmap].
  destruct (negb (is_empty (strip x))); cbn [fmap list_fmap]; rewrite IH;
    reflexivity.
Qed.

Lemma trimmed_nonempty_clean entries :
  Forall (fun tag => strip tag = tag /\ tag <> "") (trimmed_nonempty entries).
Proof.
  unfold trimmed_nonempty. apply Forall_forall. intros tag H.
  apply list_elem_of_In, filter_In in H as [Hin Hne].
  apply list_elem_of_In, list_elem_of_fmap in Hin as (x & -> & _).
  split; [apply strip_idem|].
  apply is_empty_false. apply negb_true_iff in Hne. exact Hne.
Qed.

Lemma trimmed_nonempty_order entries :
  sublist (trimmed_nonempty entries) (strip <$> entries).
Proof.
  unfold trimmed_nonempty.
  induction (strip <$> entries) as [|x l IH]; [constructor|].
  cbn [List.filter]. destruct (negb (is_empty x)); constructor; exact IH.
Qed.

End ModelFacts.

(** ** One turn of the loop, case by case *)

Section TurnFacts.

Variable HttpUrl : string -> string + UrlError.
Variable fe : Frontend.
Variable header : list string.
Variable idx : nat.

Local Abbreviation step := (process_line HttpUrl fe header idx).

Lemma skip_test line :
  negb (startswith "|" (strip line)) || negb (endswith "|" (strip line))
  = negb (is_table_row line).
Proof. unfold is_table_row. rewrite negb_andb. reflexivity. Qed.

Lemma process_line_unfold st n line :
  step st (n, line) =
  if negb (is_table_row line) then st
  else if negb (length (row_values line) =? length header)
  then report (ColumnCountMismatch (idx + 2 + n + 1) (length header)
                 (length (row_values line)) (strip line)) st
  else match CompanyData_new HttpUrl (make_row_data header (row_values line)) with
       | inl company => append company st
       | inr e => report (RowValidationFailed (row_line fe (idx + 2 + n + 1))
                            (strip line) e) st
       end.
Proof. unfold process_line. rewrite skip_test. reflexivity. Qed.

Lemma process_line_skip st n line :
  is_table_row line = false -> step st (n, line) = st.
Proof. intros H. rewrite process_line_unfold, H. reflexivity. Qed.

Lemma process_line_mismatch n line :
  is_table_row line = true ->
  length (row_values line) <> length header ->
  step nothing (n, line) =
  mkExtraction [] [ColumnCountMismatch (idx + 2 + n + 1) (length header)
                     (length (row_values line)) (strip line)].
Proof.
  intros H L. rewrite process_line_unfold, H.
  apply Nat.eqb_neq in L. rewrite L. reflexivity.
Qed.

Lemma process_line_accept n line company :
  is_table_row line = true ->
  length (row_values line) = length header ->
  CompanyData_new HttpUrl (make_row_data header (row_values line)) = inl company ->
  step nothing (n, line) = mkExtraction [company] [].
Proof.
  intros H L V. rewrite process_line_unfold, H, V.
  apply Nat.eqb_eq in L. rewrite L. reflexivity.
Qed.

Lemma process_line_reject n line e :
  is_table_row line = true ->
  length (row_values line) = length header ->
  CompanyData_new HttpUrl (make_row_data header (row_values line)) = inr e ->
  step nothing (n, line) =
  mkExtraction [] [RowValidationFailed (row_line fe (idx + 2 + n + 1)) (strip line) e].
Proof.
  intros H L V. rewrite process_line_unfold, H, V.
  apply Nat.eqb_eq in L. rewrite L. reflexivity.
Qed.

(** A turn that appends a record is a turn on a table row with the right
    number of cells, whose dictionary the model accepts. *)
Lemma process_line_appended n line company :
  step nothing (n, line) = mkExtraction [company] [] ->
  is_table_row line = true /\
  length (row_values line) = length header /\
  CompanyData_new HttpUrl (make_row_data header (row_values line)) = inl company.
Proof.
  rewrite process_line_unfold.
  destruct (is_table_row line); cbn [negb]; [|discriminate].
  destruct (length (row_values line) =? length header) eqn:L; cbn [negb];
    [|discriminate].
  destruct (CompanyData_new _ _) as [c|e]; [|discriminate].
  intros [= ->]. apply Nat.eqb_eq in L. repeat split; assumption.
Qed.

End TurnFacts.

(** ** The whole function on a located table *)

Section DocumentFacts.

Variable HttpUrl : string -> string + UrlError.
Variable fe : Frontend.

(** The rows before a line, the line, and the rows after it contribute one
    after the other. *)
Lemma parse_lines_around pre hdr sep rows1 row rows2 :
  Forall (fun l => is_header_line l = false) pre ->
  is_header_line hdr = true ->
  is_separator sep = true ->
  parse_lines HttpUrl fe (pre ++ hdr :: sep :: rows1 ++ row :: rows2) =
  followed_by
    (run_rows HttpUrl fe (parse_header hdr) (length pre) 0 rows1 nothing)
    (followed_by
       (process_line HttpUrl fe (parse_header hdr) (length pre) nothing
          (length rows1, row))
       (run_rows HttpUrl fe (parse_header hdr) (length pre) (S (length rows1))
          rows2 nothing)).
Proof.
  intros Hpre Hhdr Hsep.
  rewrite (parse_lines_table HttpUrl fe pre hdr sep _ Hpre Hhdr Hsep).
  rewrite run_rows_app, run_rows_cons. reflexivity.
Qed.

End DocumentFacts.

(** * The extractor on the sample documents *)

Example strip_ex : strip "  | a |	 " = "| a |".
Proof. reflexivity. Qed.

Example split_ex : split PIPE "| a | b |" = [""; " a "; " b "; ""].
Proof. reflexivity. Qed.

Example slice_short : slice_1_m1 (split PIPE "|") = [].
Proof. reflexivity. Qed.

Example parse_header_ex :
  parse_header full_header =
  ["Company"; "Company_Website"; "YC_Link"; "Short_Description"; "Tags";
   "Location"; "Founder_Link_1"; "Founder_Link_2"; "Founder_Link_3"].
Proof. reflexivity. Qed.

Example scenario1_run :
  parse_markdown_table_to_objects sample_HttpUrl Camel scenario1 =
  mkExtraction [acme] [].
Proof. vm_compute. reflexivity. Qed.

Example doc_bad_url_run :
  parse_markdown_table_to_objects sample_HttpUrl Camel doc_bad_url =
  mkExtraction [acme; beta]
    [RowValidationFailed (Some 4) bad_url_row [("Company_Website", url_error url_parsing)]].
Proof. vm_compute. reflexivity. Qed.

Example doc_two_tables_run :
  parse_markdown_table_to_objects sample_HttpUrl Streamlit doc_two_tables =
  mkExtraction [acme; beta]
    [RowValidationFailed None full_header
       [("Company_Website", url_error url_parsing); ("YC_Link", url_error url_parsing);
        ("Founder_Link_1", url_error url_parsing); ("Founder_Link_2", url_error url_parsing);
        ("Founder_Link_3", url_error url_parsing)];
     RowValidationFailed None full_separator
       [("Company_Website", url_error url_parsing); ("YC_Link", url_error url_parsing);
        ("Founder_Link_1", url_error url_parsing); ("Founder_Link_2", url_error url_parsing);
        ("Founder_Link_3", url_error url_parsing)]].
Proof. vm_compute. reflexivity. Qed.

(** * The specification's claims *)

Section Claims.

Variable HttpUrl : string -> string + UrlError.
Variable fe : Frontend.

Local Abbreviation extract := (parse_markdown_table_to_objects HttpUrl fe).

(** Stripping the document neither creates nor hides a header line. *)
Lemma document_lines_headerless markdown_content :
  Forall (fun line => is_header_line line = false) (split LF markdown_content) ->
  Forall (fun line => is_header_line line = false) (document_lines markdown_content).
Proof.
  intros H. apply Forall_forall. intros l Hl.
  destruct (split_strip LF markdown_content l Hl) as (l' & Hin & Heq).
  unfold is_header_line. rewrite Heq.
  exact (proj1 (Forall_forall _ _) H l' Hin).
Qed.

(** C2. If no line of the input, once trimmed, begins with the 11-character
    marker [| Company |], the function returns no record and reports
    [TableNotFound], once, and nothing else; being a total function, it
    raises nothing. *)
Theorem table_not_found (markdown_content : string) :
  Forall (fun line => startswith "| Company |" (strip line) = false)
         (split LF markdown_content) ->
  extract markdown_content = mkExtraction [] [TableNotFound]
  /\ String.length "| Company |" = 11.
Proof.
  intros H. split; [|reflexivity].
  unfold parse_markdown_table_to_objects, parse_lines, find_header.
  rewrite find_header_from_none; [reflexivity|].
  apply document_lines_headerless, H.
Qed.

(** C3. If a header line is located and either it is the last line or the
    next line, once trimmed, does not begin with [| ---], the function
    returns no record and reports [SeparatorMissing] only, whatever the rest
    of the document holds. *)
Theorem separator_missing (markdown_content : string)
    (pre : list string) (hdr : string) (rest : list string) :
  document_lines markdown_content = pre ++ hdr :: rest ->
  Forall (fun line => is_header_line line = false) pre ->
  is_header_line hdr = true ->
  rest = [] \/
  (exists next rest', rest = next :: rest' /\
                      startswith "| ---" (strip next) = false) ->
  extract markdown_content = mkExtraction [] [SeparatorMissing].
Proof.
  intros Hdoc Hpre Hhdr Hrest.
  unfold parse_markdown_table_to_objects, parse_lines, find_header.
  rewrite Hdoc, (find_header_from_first 0 pre hdr rest Hpre Hhdr).
  cbn [Nat.add].
  destruct Hrest as [->|(next & rest' & -> & Hnext)].
  - assert (L : (length (pre ++ [hdr]) <=? length pre + 1) = true).
    { apply Nat.leb_le. rewrite length_app. reflexivity. }
    rewrite L. reflexivity.
  - assert (H1 : (pre ++ hdr :: next :: rest') !! (length pre + 1) = Some next).
    { replace (pre ++ hdr :: next :: rest')
        with ((pre ++ [hdr]) ++ next :: rest')
        by (rewrite <- app_assoc; reflexivity).
      apply list_lookup_middle. rewrite length_app. reflexivity. }
    rewrite H1. cbn [default from_option id]. rewrite Hnext.
    rewrite orb_true_r. reflexivity.
Qed.

(** C4, as the code has it. A line after the separator that, once trimmed,
    starts and ends with [|] and whose number of cells differs from the
    header's yields no record; [ColumnCountMismatch] is reported with the
    1-based number of the line in the stripped document, the two counts and
    the trimmed text of the line; and the loop goes on with the lines that
    follow. *)
Theorem column_count_mismatch_skips_row (markdown_content : string)
    (pre : list string) (hdr sep : string) (rows1 : list string)
    (row : string) (rows2 : list string) :
  document_lines markdown_content = pre ++ hdr :: sep :: rows1 ++ row :: rows2 ->
  Forall (fun line => is_header_line line = false) pre ->
  is_header_line hdr = true ->
  is_separator sep = true ->
  is_table_row row = true ->
  length (row_values row) <> length (parse_header hdr) ->
  document_lines markdown_content !! (length pre + 2 + length rows1) = Some row
  /\ extract markdown_content =
     followed_by
       (run_rows HttpUrl fe (parse_header hdr) (length pre) 0 rows1 nothing)
       (followed_by
          (mkExtraction []
             [ColumnCountMismatch (length pre + 2 + length rows1 + 1)
                (length (parse_header hdr)) (length (row_values row))
                (strip row)])
          (run_rows HttpUrl fe (parse_header hdr) (length pre)
             (S (length rows1)) rows2 nothing)).
Proof.
  intros Hdoc Hpre Hhdr Hsep Hrow Hlen. split.
  - rewrite Hdoc.
    replace (pre ++ hdr :: sep :: rows1 ++ row :: rows2)
      with ((pre ++ hdr :: sep :: rows1) ++ row :: rows2)
      by (rewrite <- app_assoc; reflexivity).
    apply list_lookup_middle. rewrite length_app. cbn [length]. lia.
  - unfold parse_markdown_table_to_objects. rewrite Hdoc.
    rewrite (parse_lines_around HttpUrl fe pre hdr sep rows1 row rows2
               Hpre Hhdr Hsep).
    rewrite (process_line_mismatch HttpUrl fe _ _ _ _ Hrow Hlen).
    reflexivity.
Qed.

(** C1. In a document with a located header and a valid separator, a data
    row in which a URL field is present (its cell is neither empty nor the
    sentinel) and is refused by the URL validation, for whatever reason,
    yields no record: the row is reported as [RowValidationFailed] with the
    validation's error on that field, the rows before and after it
    contribute what they contribute on their own, and the function
    returns. *)
Theorem invalid_url_rejects_row (markdown_content : string)
    (pre : list string) (hdr sep : string) (rows1 : list string)
    (row : string) (rows2 : list string) (field v : string) (why : UrlError) :
  document_lines markdown_content = pre ++ hdr :: sep :: rows1 ++ row :: rows2 ->
  Forall (fun line => is_header_line line = false) pre ->
  is_header_line hdr = true ->
  is_separator sep = true ->
  is_table_row row = true ->
  length (row_values row) = length (parse_header hdr) ->
  field ∈ url_fields ->
  cell_of (parse_header hdr) (row_values row) field = Some v ->
  v <> "" -> lower v <> "nan" -> HttpUrl v = inr why ->
  exists e,
    (field, url_error why) ∈ e /\
    extract markdown_content =
    followed_by
      (run_rows HttpUrl fe (parse_header hdr) (length pre) 0 rows1 nothing)
      (followed_by
         (mkExtraction []
            [RowValidationFailed
               (row_line fe (length pre + 2 + length rows1 + 1))
               (strip row) e])
         (run_rows HttpUrl fe (parse_header hdr) (length pre)
            (S (length rows1)) rows2 nothing)).
Proof.
  intros Hdoc Hpre Hhdr Hsep Hrow Hlen Hfield Hcell Hv Hnan Hurl.
  assert (Hstrip : strip v = v).
  { apply (row_values_stripped row), (cell_of_elem _ _ _ _ Hcell). }
  assert (Hk : make_row_data (parse_header hdr) (row_values row) !! field
               = Some (PyStr v)).
  { rewrite make_row_data_lookup, Hcell. unfold cell_value. cbn [fmap option_fmap option_map].
    apply String.eqb_neq in Hnan. rewrite Hnan. reflexivity. }
  pose proof (optional_url_invalid HttpUrl _ _ _ _ Hk Hstrip Hv Hnan Hurl) as Hbad.
  destruct (CompanyData_new_rejected HttpUrl
              (make_row_data (parse_header hdr) (row_values row))
              (field, url_error why)) as (e & He & Hin).
  { apply (url_error_reported HttpUrl field); [exact Hfield|].
    rewrite Hbad. left. }
  exists e. split; [exact Hin|].
  unfold parse_markdown_table_to_objects. rewrite Hdoc.
  rewrite (parse_lines_around HttpUrl fe pre hdr sep rows1 row rows2
             Hpre Hhdr Hsep).
  rewrite (process_line_reject HttpUrl fe _ _ _ _ e Hrow Hlen He).
  reflexivity.
Qed.

(** C9. In a document with a located header and a valid separator, take any
    line [row] after the separator.  Removing it, or putting any other line
    [row'] in its place, leaves what every other row contributes (the record
    appended, or the report made) as it was, in the same order; after a
    removal, the reports of the rows that followed carry a line number
    smaller by one. *)
Theorem row_independence (markdown_content removed replaced : string)
    (pre : list string) (hdr sep : string) (rows1 : list string)
    (row row' : string) (rows2 : list string) :
  document_lines markdown_content = pre ++ hdr :: sep :: rows1 ++ row :: rows2 ->
  document_lines removed = pre ++ hdr :: sep :: rows1 ++ rows2 ->
  document_lines replaced = pre ++ hdr :: sep :: rows1 ++ row' :: rows2 ->
  Forall (fun line => is_header_line line = false) pre ->
  is_header_line hdr = true ->
  is_separator sep = true ->
  let header := parse_header hdr in
  let before := row_outcomes HttpUrl fe header (length pre) 0 rows1 in
  let after := row_outcomes HttpUrl fe header (length pre) (length rows1) rows2 in
  let turn line :=
    process_line HttpUrl fe header (length pre) nothing (length rows1, line) in
  extract removed = gather (before ++ after)
  /\ extract markdown_content = gather (before ++ turn row :: (renumbered S <$> after))
  /\ extract replaced = gather (before ++ turn row' :: (renumbered S <$> after))
  /\ Forall (fun o => companies (renumbered S o) = companies o) after.
Proof.
  intros Hdoc Hrem Hrep Hpre Hhdr Hsep header before after turn.
  assert (Hwith : forall x,
    parse_lines HttpUrl fe (pre ++ hdr :: sep :: rows1 ++ x :: rows2) =
    gather (before ++ turn x :: (renumbered S <$> after))).
  { intros x.
    rewrite (parse_lines_table HttpUrl fe pre hdr sep _ Hpre Hhdr Hsep).
    rewrite run_rows_gather, row_outcomes_app. cbn [Nat.add].
    unfold row_outcomes at 2. cbn [enumerate_from fmap list_fmap].
    fold (row_outcomes HttpUrl fe (parse_header hdr) (length pre)
            (S (length rows1)) rows2).
    rewrite row_outcomes_shift. reflexivity. }
  unfold parse_markdown_table_to_objects. rewrite Hdoc, Hrem, Hrep.
  split; [|split; [apply Hwith | split; [apply Hwith|]]].
  - rewrite (parse_lines_table HttpUrl fe pre hdr sep _ Hpre Hhdr Hsep).
    rewrite run_rows_gather, row_outcomes_app. reflexivity.
  - apply Forall_forall. intros o _. reflexivity.
Qed.

(** C8, as the code has it. Only the first line that, once trimmed, begins
    with [| Company |] defines the column names.  Every line after the
    separator that follows it, a later header line, its separator and its
    rows included, is a candidate data row under those names: the result is
    what these lines contribute one by one. *)
Theorem first_header_fixes_schema (markdown_content : string)
    (pre : list string) (hdr sep : string) (rows : list string) :
  document_lines markdown_content = pre ++ hdr :: sep :: rows ->
  Forall (fun line => is_header_line line = false) pre ->
  is_header_line hdr = true ->
  is_separator sep = true ->
  extract markdown_content =
  gather (row_outcomes HttpUrl fe (parse_header hdr) (length pre) 0 rows).
Proof.
  intros Hdoc Hpre Hhdr Hsep.
  unfold parse_markdown_table_to_objects. rewrite Hdoc.
  rewrite (parse_lines_table HttpUrl fe pre hdr sep rows Hpre Hhdr Hsep).
  apply run_rows_gather.
Qed.

(** C7, as the code has it. When a data row is accepted, its record has no
    location if the location cell is [nan] in any letter case, and has the
    empty string as location if the cell is empty once trimmed. *)
Theorem location_cell (header : list string) (idx n : nat) (line : string)
    (company : CompanyData) (v : string) :
  process_line HttpUrl fe header idx nothing (n, line)
  = mkExtraction [company] [] ->
  cell_of header (row_values line) "Location" = Some v ->
  (lower v = "nan" -> Location company = None)
  /\ (v = "" -> Location company = Some "").
Proof.
  intros Hturn Hcell.
  apply process_line_appended in Hturn as (_ & _ & Hnew).
  apply CompanyData_new_inl in Hnew as (_ & _ & _ & _ & _ & Hloc & _).
  unfold optional_str in Hloc.
  rewrite make_row_data_lookup, Hcell in Hloc.
  cbn [fmap option_fmap option_map] in Hloc. unfold cell_value in Hloc.
  split.
  - intros Hnan. rewrite Hnan in Hloc. cbn in Hloc. congruence.
  - intros ->. cbn in Hloc. congruence.
Qed.

(** C10. A data row with the right number of cells in which the cell of a
    required field ([Company] or [Short_Description]) is empty once trimmed,
    and which has no error on any other field, is accepted: the turn appends
    a record whose required field is the empty string. *)
Theorem empty_required_field_accepted (header : list string) (idx n : nat)
    (line name : string) :
  name ∈ required_fields ->
  is_table_row line = true ->
  length (row_values line) = length header ->
  cell_of header (row_values line) name = Some "" ->
  Forall (fun err => err.1 = name)
    (errors (CompanyData_new HttpUrl (make_row_data header (row_values line)))) ->
  exists company,
    process_line HttpUrl fe header idx nothing (n, line)
    = mkExtraction [company] []
    /\ required_text name company = "".
Proof.
  intros Hname Hrow Hlen Hcell Hothers.
  set (row_data := make_row_data header (row_values line)) in *.
  assert (Hk : required_str name row_data = inl "").
  { unfold required_str, row_data. rewrite make_row_data_lookup, Hcell.
    reflexivity. }
  assert (Hnone : errors (CompanyData_new HttpUrl row_data) = []).
  { pose proof (CompanyData_new_error_fields HttpUrl row_data) as Hfields.
    destruct (errors (CompanyData_new HttpUrl row_data)) as [|err rest];
      [reflexivity|exfalso].
    apply Forall_cons in Hothers as [Herr _].
    apply Forall_cons in Hfields as [Hfield _].
    pose proof (required_str_errors "Company" row_data) as HC.
    pose proof (required_str_errors "Short_Description" row_data) as HS.
    rewrite Forall_forall in HC, HS.
    unfold required_fields in Hname.
    apply elem_of_cons in Hname as [->|Hname];
      [|apply elem_of_cons in Hname as [->|Hname]; [|inversion Hname]].
    - rewrite Hk in Hfield.
      destruct Hfield as [H|[H|H]].
      + inversion H.
      + apply HS in H. congruence.
      + rewrite Herr in H.
        repeat (apply elem_of_cons in H as [H|H]; [discriminate H|]).
        inversion H.
    - rewrite Hk in Hfield.
      destruct Hfield as [H|[H|H]].
      + apply HC in H. congruence.
      + inversion H.
      + rewrite Herr in H.
        repeat (apply elem_of_cons in H as [H|H]; [discriminate H|]).
        inversion H. }
  destruct (CompanyData_new_no_errors HttpUrl row_data Hnone) as [company Hnew].
  exists company. split.
  - apply process_line_accept; assumption.
  - apply CompanyData_new_inl in Hnew as (HC & _ & _ & HS & _).
    unfold required_fields in Hname. unfold required_text.
    apply elem_of_cons in Hname as [->|Hname];
      [|apply elem_of_cons in Hname as [->|Hname]; [|inversion Hname]].
    + cbn. congruence.
    + cbn. congruence.
Qed.


End Claims.

Lemma table_not_found_witness :
  Forall (fun line => startswith "| Company |" (strip line) = false)
         (split LF doc_no_table)
  /\ (parse_markdown_table_to_objects sample_HttpUrl Camel doc_no_table
      = mkExtraction [] [TableNotFound]
      /\ String.length "| Company |" = 11).
Proof.
  split.
  - repeat constructor.
  - apply (table_not_found sample_HttpUrl Camel doc_no_table).
    repeat constructor.
Defined.

Lemma separator_missing_witness :
  document_lines doc_no_separator = ["## W24"] ++ full_header :: [""; acme_row]
  /\ Forall (fun line => is_header_line line = false) ["## W24"]
  /\ is_header_line full_header = true
  /\ startswith "| ---" (strip "") = false
  /\ parse_markdown_table_to_objects sample_HttpUrl Camel doc_no_separator
     = mkExtraction [] [SeparatorMissing].
Proof.
  split; [reflexivity|]. split; [repeat constructor|].
  split; [reflexivity|]. split; [reflexivity|].
  apply (separator_missing sample_HttpUrl Camel doc_no_separator
           ["## W24"] full_header [""; acme_row]).
  - reflexivity.
  - repeat constructor.
  - reflexivity.
  - right. exists "", [acme_row]. split; reflexivity.
Defined.

Example header_on_last_line :
  document_lines doc_header_last = ["## W24"; full_header]
  /\ parse_markdown_table_to_objects sample_HttpUrl Streamlit doc_header_last
     = mkExtraction [] [SeparatorMissing].
Proof. split; reflexivity. Qed.

(** C4, as the specification words it, fails: the row written on line 5 of
    the input as [  | x |  ] is reported on line 3 with the text [| x |]. *)
Lemma mismatch_report_not_raw :
  split LF doc_mismatch !! (5 - 1) = Some "  | x |  "
  /\ is_table_row "  | x |  " = true
  /\ issues (parse_markdown_table_to_objects sample_HttpUrl Camel doc_mismatch)
     = [ColumnCountMismatch 3 2 1 "| x |"]
  /\ ColumnCountMismatch 5 2 1 "  | x |  "
     ∉ issues (parse_markdown_table_to_objects sample_HttpUrl Camel doc_mismatch).
Proof.
  split; [reflexivity|]. split; [reflexivity|]. split; [reflexivity|].
  intros H. vm_compute in H. apply list_elem_of_In in H.
  destruct H as [H|[]]. discriminate H.
Qed.

Lemma column_count_mismatch_skips_row_witness :
  document_lines doc_mismatch =
    [] ++ small_header :: small_separator :: [] ++ "  | x |  " :: ["| ok | fine |"]
  /\ is_header_line small_header = true
  /\ is_separator small_separator = true
  /\ is_table_row "  | x |  " = true
  /\ length (row_values "  | x |  ") <> length (parse_header small_header)
  /\ (document_lines doc_mismatch !! 2 = Some "  | x |  "
      /\ parse_markdown_table_to_objects sample_HttpUrl Camel doc_mismatch =
         followed_by
           (run_rows sample_HttpUrl Camel (parse_header small_header) 0 0 []
              nothing)
           (followed_by
              (mkExtraction [] [ColumnCountMismatch 3 2 1 "| x |"])
              (run_rows sample_HttpUrl Camel (parse_header small_header) 0 1
                 ["| ok | fine |"] nothing))).
Proof.
  split; [reflexivity|]. split; [reflexivity|]. split; [reflexivity|].
  split; [reflexivity|]. split; [discriminate|].
  apply (column_count_mismatch_skips_row sample_HttpUrl Camel doc_mismatch
           [] small_header small_separator [] "  | x |  " ["| ok | fine |"]).
  - reflexivity.
  - constructor.
  - reflexivity.
  - reflexivity.
  - reflexivity.
  - discriminate.
Defined.

Lemma invalid_url_rejects_row_witness :
  document_lines doc_bad_url =
    [] ++ full_header :: full_separator :: [acme_row] ++ bad_url_row :: [beta_row]
  /\ is_header_line full_header = true
  /\ is_separator full_separator = true
  /\ is_table_row bad_url_row = true
  /\ length (row_values bad_url_row) = length (parse_header full_header)
  /\ "Company_Website" ∈ url_fields
  /\ cell_of (parse_header full_header) (row_values bad_url_row) "Company_Website"
     = Some "not-a-url"
  /\ lower "not-a-url" <> "nan"
  /\ sample_HttpUrl "not-a-url" = inr url_parsing
  /\ exists e,
      ("Company_Website", url_error url_parsing) ∈ e /\
      parse_markdown_table_to_objects sample_HttpUrl Camel doc_bad_url =
      followed_by
        (run_rows sample_HttpUrl Camel (parse_header full_header) 0 0
           [acme_row] nothing)
        (followed_by
           (mkExtraction [] [RowValidationFailed (Some 4) (strip bad_url_row) e])
           (run_rows sample_HttpUrl Camel (parse_header full_header) 0 2
              [beta_row] nothing)).
Proof.
  split; [reflexivity|]. split; [reflexivity|]. split; [reflexivity|].
  split; [reflexivity|]. split; [reflexivity|].
  split; [left|]. split; [reflexivity|]. split; [discriminate|].
  split; [reflexivity|].
  apply (invalid_url_rejects_row sample_HttpUrl Camel doc_bad_url
           [] full_header full_separator [acme_row] bad_url_row [beta_row]
           "Company_Website" "not-a-url" url_parsing).
  - reflexivity.
  - constructor.
  - reflexivity.
  - reflexivity.
  - reflexivity.
  - reflexivity.
  - left.
  - reflexivity.
  - discriminate.
  - discriminate.
  - reflexivity.
Defined.

Lemma row_independence_witness :
  document_lines doc_bad_url =
    [] ++ full_header :: full_separator :: [acme_row] ++ bad_url_row :: [beta_row]
  /\ document_lines doc_row_removed =
    [] ++ full_header :: full_separator :: [acme_row] ++ [beta_row]
  /\ document_lines doc_row_corrupted =
    [] ++ full_header :: full_separator :: [acme_row] ++ "| Gam" :: [beta_row]
  /\ is_header_line full_header = true
  /\ is_separator full_separator = true
  /\ (let header := parse_header full_header in
      let before := row_outcomes sample_HttpUrl Camel header 0 0 [acme_row] in
      let after := row_outcomes sample_HttpUrl Camel header 0 1 [beta_row] in
      let turn line := process_line sample_HttpUrl Camel header 0 nothing (1, line) in
      parse_markdown_table_to_objects sample_HttpUrl Camel doc_row_removed
      = gather (before ++ after)
      /\ parse_markdown_table_to_objects sample_HttpUrl Camel doc_bad_url
         = gather (before ++ turn bad_url_row :: (renumbered S <$> after))
      /\ parse_markdown_table_to_objects sample_HttpUrl Camel doc_row_corrupted
         = gather (before ++ turn "| Gam" :: (renumbered S <$> after))
      /\ Forall (fun o => companies (renumbered S o) = companies o) after).
Proof.
  split; [reflexivity|]. split; [reflexivity|]. split; [reflexivity|].
  split; [reflexivity|]. split; [reflexivity|].
  apply (row_independence sample_HttpUrl Camel doc_bad_url doc_row_removed
           doc_row_corrupted [] full_header full_separator [acme_row]
           bad_url_row "| Gam" [beta_row]).
  - reflexivity.
  - reflexivity.
  - reflexivity.
  - constructor.
  - reflexivity.
  - reflexivity.
Defined.

(** C8, as the specification words it, fails: the row of a second table is
    not ignored, it yields a record. *)
Lemma second_table_not_ignored :
  document_lines doc_two_tables =
    document_lines doc_first_table
    ++ [""; "## S24"; full_header; full_separator; beta_row]
  /\ companies (parse_markdown_table_to_objects sample_HttpUrl Camel doc_first_table)
     = [acme]
  /\ companies (parse_markdown_table_to_objects sample_HttpUrl Camel doc_two_tables)
     = [acme; beta]
  /\ companies (parse_markdown_table_to_objects sample_HttpUrl Camel doc_two_tables)
     <> companies (parse_markdown_table_to_objects sample_HttpUrl Camel doc_first_table).
Proof.
  split; [reflexivity|]. split; [reflexivity|]. split; [reflexivity|].
  vm_compute. discriminate.
Qed.

Lemma first_header_fixes_schema_witness :
  document_lines doc_two_tables =
    [] ++ full_header :: full_separator
       :: [acme_row; ""; "## S24"; full_header; full_separator; beta_row]
  /\ is_header_line full_header = true
  /\ is_separator full_separator = true
  /\ parse_markdown_table_to_objects sample_HttpUrl Camel doc_two_tables =
     gather (row_outcomes sample_HttpUrl Camel (parse_header full_header) 0 0
               [acme_row; ""; "## S24"; full_header; full_separator; beta_row]).
Proof.
  split; [reflexivity|]. split; [reflexivity|]. split; [reflexivity|].
  apply (first_header_fixes_schema sample_HttpUrl Camel doc_two_tables
           [] full_header full_separator
           [acme_row; ""; "## S24"; full_header; full_separator; beta_row]).
  - reflexivity.
  - constructor.
  - reflexivity.
  - reflexivity.
Defined.

(** C7, as the specification words it, fails: an empty location cell gives
    the empty string as location, not an absent one. *)
Lemma empty_location_not_absent :
  cell_of (parse_header full_header)
    (row_values "| Acme | https://acme.com | | Widgets | b2b | | | | |")
    "Location" = Some ""
  /\ companies (parse_markdown_table_to_objects sample_HttpUrl Camel
                 doc_empty_location)
     = [mkCompanyData "Acme" (Some "https://acme.com") None "Widgets"
          (Some ["b2b"]) (Some "") None None None]
  /\ Location <$> companies (parse_markdown_table_to_objects sample_HttpUrl Camel
                  doc_empty_location)
     <> [None].
Proof.
  split; [reflexivity|]. split; [reflexivity|]. vm_compute. discriminate.
Qed.

Lemma location_cell_witness :
  process_line sample_HttpUrl Camel (parse_header full_header) 0 nothing
    (1, beta_row) = mkExtraction [beta] []
  /\ cell_of (parse_header full_header) (row_values beta_row) "Location"
     = Some "nan"
  /\ ((lower "nan" = "nan" -> Location beta = None)
      /\ ("nan" = "" -> Location beta = Some "")).
Proof.
  split; [reflexivity|]. split; [reflexivity|].
  apply (location_cell sample_HttpUrl Camel (parse_header full_header) 0 1
           beta_row beta "nan"); reflexivity.
Defined.

Lemma empty_required_field_accepted_witness :
  "Company" ∈ required_fields
  /\ is_table_row "|   | A company without a name |" = true
  /\ length (row_values "|   | A company without a name |")
     = length (parse_header small_header)
  /\ cell_of (parse_header small_header)
       (row_values "|   | A company without a name |") "Company" = Some ""
  /\ Forall (fun err => err.1 = "Company")
       (errors (CompanyData_new sample_HttpUrl
                  (make_row_data (parse_header small_header)
                     (row_values "|   | A company without a name |"))))
  /\ exists company,
      process_line sample_HttpUrl Streamlit (parse_header small_header) 0
        nothing (0, "|   | A company without a name |")
      = mkExtraction [company] []
      /\ required_text "Company" company = "".
Proof.
  split; [left|]. split; [reflexivity|]. split; [reflexivity|].
  split; [reflexivity|]. split; [vm_compute; constructor|].
  apply (empty_required_field_accepted sample_HttpUrl Streamlit
           (parse_header small_header) 0 0
           "|   | A company without a name |" "Company").
  - left.
  - reflexivity.
  - reflexivity.
  - reflexivity.
  - vm_compute. constructor.
Defined.

Example doc_empty_company_run :
  parse_markdown_table_to_objects sample_HttpUrl Camel doc_empty_company =
  mkExtraction
    [mkCompanyData "" None None "A company without a name" None None None None
       None] [].
Proof. vm_compute. reflexivity. Qed.

Example nan_company_rejected :
  parse_markdown_table_to_objects sample_HttpUrl Camel
    (join LF [small_header; small_separator; "| NaN | Nameless |"]) =
  mkExtraction [] [RowValidationFailed (Some 3) "| NaN | Nameless |"
                     [("Company", string_type)]].
Proof. vm_compute. reflexivity. Qed.


(** C6. [split_tags] turns ["ai, fintech , saas"] into ["ai"; "fintech";
    "saas"]; a string is split on commas, each entry trimmed and the entries
    left empty dropped, in order; the sentinel in any letter case gives no
    tags; a list goes through with each item trimmed and the empty ones
    dropped. *)
Theorem split_tags_normalizes :
  split_tags (PyStr "ai, fintech , saas") = Some ["ai"; "fintech"; "saas"]
  /\ (forall v : string,
        split_tags (PyStr v) =
        if bool_decide (v ∈ nan_spellings) then None
        else Some (trimmed_nonempty (split COMMA v)))
  /\ (forall l : list string, split_tags (PyList l) = Some (trimmed_nonempty l))
  /\ (forall l : list string,
        Forall (fun tag => strip tag = tag /\ tag <> "") (trimmed_nonempty l)
        /\ sublist (trimmed_nonempty l) (strip <$> l)).
Proof.
  split; [reflexivity|]. split; [|split].
  - intros v. unfold split_tags. rewrite filter_then_strip.
    destruct (String.eqb_spec (lower v) "nan") as [E|E].
    + apply lower_nan_iff in E. rewrite bool_decide_eq_true_2 by exact E.
      reflexivity.
    + rewrite bool_decide_eq_false_2; [reflexivity|].
      intros H. apply E, lower_nan_iff, H.
  - intros l. unfold split_tags. rewrite filter_then_strip. reflexivity.
  - intros l. split; [apply trimmed_nonempty_clean | apply trimmed_nonempty_order].
Qed.

Example tags_examples :
  split_tags (PyStr "NaN") = None
  /\ split_tags (PyStr " , ,") = Some []
  /\ split_tags (PyList [" ai "; ""; "  "; "saas"]) = Some ["ai"; "saas"]
  /\ split_tags PyNone = None.
Proof. repeat split. Qed.

(** The remaining scenarios of the specification. *)

Example scenario2_run :
  parse_markdown_table_to_objects sample_HttpUrl Camel
    (join LF [full_header; full_separator;
              "| Acme | https://acme.com | | Widgets | b2b | SF | | | | extra | more |"])
  = mkExtraction []
      [ColumnCountMismatch 3 9 11
         "| Acme | https://acme.com | | Widgets | b2b | SF | | | | extra | more |"].
Proof. vm_compute. reflexivity. Qed.

Example scenario6_run :
  parse_markdown_table_to_objects sample_HttpUrl Streamlit
    (join LF [full_header; full_separator; acme_row;
              "| Delta | | | nan | | | | | |"])
  = mkExtraction [acme]
      [RowValidationFailed None "| Delta | | | nan | | | | | |"
         [("Short_Description", string_type)]].
Proof. vm_compute. reflexivity. Qed.

Example empty_tags_cell :
  companies (parse_markdown_table_to_objects sample_HttpUrl Camel
               (join LF [full_header; full_separator;
                         "| Acme | | | Widgets | | nan | | | |"]))
  = [mkCompanyData "Acme" None None "Widgets" (Some []) None None None None].
Proof. vm_compute. reflexivity. Qed.

(** * Further properties of the extractor *)

Section RowReadingFacts.

Variable HttpUrl : string -> string + UrlError.

Lemma accepted_vap {A B} (f : Validated (A -> B)) (x : Validated A) :
  accepted (f <&> x) =
  match accepted f, accepted x with
  | Some g, Some a => Some (g a)
  | _, _ => None
  end.
Proof. destruct f, x; reflexivity. Qed.

Lemma lookup_supplied header values name :
  make_row_data header values !! name =
  match cell_of header values name with
  | None => None
  | Some v => Some (match supplied header values name with
                    | Some s => PyStr s
                    | None => PyNone
                    end)
  end.
Proof.
  rewrite make_row_data_lookup. unfold supplied, cell_value.
  destruct (cell_of header values name) as [v|]; [|reflexivity].
  cbn [fmap option_fmap option_map].
  destruct (String.eqb (lower v) "nan"); reflexivity.
Qed.

Lemma required_str_supplied header values name :
  accepted (required_str name (make_row_data header values))
  = supplied header values name.
Proof.
  unfold required_str. rewrite lookup_supplied.
  destruct (cell_of header values name) as [v|] eqn:E.
  - destruct (supplied header values name); reflexivity.
  - unfold supplied. rewrite E. reflexivity.
Qed.

Lemma optional_str_supplied header values name :
  optional_str name (make_row_data header values)
  = inl (supplied header values name).
Proof.
  unfold optional_str. rewrite lookup_supplied.
  destruct (cell_of header values name) as [v|] eqn:E.
  - destruct (supplied header values name); reflexivity.
  - unfold supplied. rewrite E. reflexivity.
Qed.

Lemma optional_tags_supplied header values name :
  optional_tags name (make_row_data header values)
  = inl (tags_of (supplied header values name)).
Proof.
  unfold optional_tags. rewrite make_row_data_lookup. unfold supplied, cell_value.
  destruct (cell_of header values name) as [v|]; [|reflexivity].
  cbn [fmap option_fmap option_map]. unfold split_tags.
  destruct (String.eqb (lower v) "nan") eqn:E; [reflexivity|].
  rewrite E, filter_then_strip. reflexivity.
Qed.

Lemma optional_url_supplied header values name :
  Forall (fun v => strip v = v) values ->
  accepted (optional_url HttpUrl name (make_row_data header values))
  = url_of HttpUrl (supplied header values name).
Proof.
  intros Hs. unfold optional_url. rewrite make_row_data_lookup.
  unfold supplied, cell_value.
  destruct (cell_of header values name) as [v|] eqn:E; [|reflexivity].
  cbn [fmap option_fmap option_map].
  assert (Hv : strip v = v).
  { apply (proj1 (Forall_forall _ _) Hs), (cell_of_elem _ _ _ _ E). }
  destruct (String.eqb (lower v) "nan") eqn:N; [reflexivity|].
  unfold clean_url, url_of. rewrite Hv, N. cbn [orb].
  destruct (is_empty v); [reflexivity|].
  destruct (HttpUrl v); reflexivity.
Qed.

Lemma row_values_all_stripped line :
  Forall (fun v => strip v = v) (row_values line).
Proof. apply Forall_forall. intros v. apply row_values_stripped. Qed.

(** The model accepts a row of stripped cells exactly when the row read cell
    by cell has a record, and then constructs that record. *)
Lemma CompanyData_new_row_record header values :
  Forall (fun v => strip v = v) values ->
  accepted (CompanyData_new HttpUrl (make_row_data header values))
  = row_record HttpUrl header values.
Proof.
  intros Hs. unfold CompanyData_new. rewrite !accepted_vap.
  rewrite !required_str_supplied, !(optional_url_supplied _ _ _ Hs),
          optional_tags_supplied, optional_str_supplied.
  unfold row_record. cbn [accepted].
  destruct (supplied header values "Company"); [|reflexivity].
  cbn [mbind option_bind].
  destruct (url_of HttpUrl (supplied header values "Company_Website"));
    [|reflexivity].
  cbn [mbind option_bind].
  destruct (url_of HttpUrl (supplied header values "YC_Link")); [|reflexivity].
  cbn [mbind option_bind].
  destruct (supplied header values "Short_Description"); [|reflexivity].
  cbn [mbind option_bind].
  destruct (url_of HttpUrl (supplied header values "Founder_Link_1"));
    [|reflexivity].
  cbn [mbind option_bind].
  destruct (url_of HttpUrl (supplied header values "Founder_Link_2"));
    [|reflexivity].
  cbn [mbind option_bind].
  destruct (url_of HttpUrl (supplied header values "Founder_Link_3"));
    reflexivity.
Qed.

(** The records one turn of the loop adds. *)
Lemma process_line_records fe header idx n line :
  companies (process_line HttpUrl fe header idx nothing (n, line))
  = line_records HttpUrl header line.
Proof.
  rewrite process_line_unfold. unfold line_records.
  destruct (is_table_row line); [|reflexivity]. cbn [negb andb].
  destruct (length (row_values line) =? length header); [|reflexivity].
  cbn [negb].
  rewrite <- (CompanyData_new_row_record _ _ (row_values_all_stripped line)).
  destruct (CompanyData_new _ _); reflexivity.
Qed.

Lemma companies_gather outcomes :
  companies (gather outcomes) = concat (companies <$> outcomes).
Proof.
  induction outcomes as [|o outcomes IH]; [reflexivity|].
  cbn [gather foldr fmap list_fmap concat]. fold (gather outcomes).
  unfold followed_by at 1. cbn [companies]. rewrite IH. reflexivity.
Qed.

Lemma companies_run_rows fe header idx start rows :
  companies (run_rows HttpUrl fe header idx start rows nothing)
  = concat (line_records HttpUrl header <$> rows).
Proof.
  rewrite run_rows_gather, companies_gather. f_equal.
  unfold row_outcomes. revert start.
  induction rows as [|r rows IH]; intros start; [reflexivity|].
  cbn [enumerate_from fmap list_fmap]. rewrite process_line_records.
  f_equal. apply IH.
Qed.

(** The fields of the record of a row. *)
Lemma row_record_fields header values company :
  row_record HttpUrl header values = Some company ->
  let cell := supplied header values in
  cell "Company" = Some (Company company)
  /\ url_of HttpUrl (cell "Company_Website") = Some (Company_Website company)
  /\ url_of HttpUrl (cell "YC_Link") = Some (YC_Link company)
  /\ cell "Short_Description" = Some (Short_Description company)
  /\ Tags company = tags_of (cell "Tags")
  /\ Location company = cell "Location"
  /\ url_of HttpUrl (cell "Founder_Link_1") = Some (Founder_Link_1 company)
  /\ url_of HttpUrl (cell "Founder_Link_2") = Some (Founder_Link_2 company)
  /\ url_of HttpUrl (cell "Founder_Link_3") = Some (Founder_Link_3 company).
Proof.
  unfold row_record. cbv zeta.
  destruct (supplied header values "Company"); [|discriminate].
  cbn [mbind option_bind].
  destruct (url_of HttpUrl (supplied header values "Company_Website"));
    [|discriminate].
  cbn [mbind option_bind].
  destruct (url_of HttpUrl (supplied header values "YC_Link")); [|discriminate].
  cbn [mbind option_bind].
  destruct (supplied header values "Short_Description"); [|discriminate].
  cbn [mbind option_bind].
  destruct (url_of HttpUrl (supplied header values "Founder_Link_1"));
    [|discriminate].
  cbn [mbind option_bind].
  destruct (url_of HttpUrl (supplied header values "Founder_Link_2"));
    [|discriminate].
  cbn [mbind option_bind].
  destruct (url_of HttpUrl (supplied header values "Founder_Link_3"));
    [|discriminate].
  cbn [mbind option_bind]. intros [= <-]. cbn. repeat split; reflexivity.
Qed.

(** A supplied text is one of the cells and is not the sentinel. *)
Lemma supplied_cell header values name v :
  supplied header values name = Some v ->
  v ∈ values /\ v ∉ nan_spellings.
Proof.
  unfold supplied. destruct (cell_of header values name) as [x|] eqn:E;
    [|discriminate].
  destruct (String.eqb_spec (lower x) "nan") as [|N]; [discriminate|].
  intros [= <-]. split; [exact (cell_of_elem _ _ _ _ E)|].
  intros H. apply N, lower_nan_iff, H.
Qed.

(** A URL of a record is the validated text of a cell. *)
Lemma url_of_some cell u :
  url_of HttpUrl cell = Some (Some u) ->
  exists v, cell = Some v /\ v <> "" /\ HttpUrl v = inl u.
Proof.
  unfold url_of. destruct cell as [v|]; [|discriminate].
  destruct (is_empty v) eqn:E; [discriminate|].
  destruct (HttpUrl v) as [u'|] eqn:U; [|discriminate].
  intros [= <-]. exists v. apply is_empty_false in E. repeat split; assumption.
Qed.

(** Every record returned is the record of some table row of the document
    under some header. *)
Lemma companies_from_rows fe lines company :
  company ∈ companies (parse_lines HttpUrl fe lines) ->
  exists header line,
    line ∈ lines /\ is_table_row line = true /\
    row_record HttpUrl header (row_values line) = Some company.
Proof.
  unfold parse_lines. destruct (find_header lines) as [idx|];
    [|intros H; inversion H].
  destruct (_ || _); [intros H; inversion H|].
  change (fold_left ?f (enumerate ?l) (mkExtraction [] []))
    with (run_rows HttpUrl fe (parse_header (default "" (lines !! idx))) idx 0 l nothing).
  rewrite companies_run_rows. intros H.
  apply list_elem_of_In, in_concat in H as (l & Hl & Hin).
  apply list_elem_of_In in Hl, Hin.
  apply list_elem_of_fmap in Hl as (line & -> & Hline).
  apply (subseteq_drop _ _ line) in Hline.
  unfold line_records in Hin.
  destruct (is_table_row line) eqn:T; cbn [andb] in Hin; [|inversion Hin].
  destruct (_ =? _); [|inversion Hin].
  destruct (row_record _ _ _) as [c|] eqn:E; [|inversion Hin].
  apply list_elem_of_singleton in Hin as ->. eauto.
Qed.

End RowReadingFacts.

Section ExtractorProperties.

Variable HttpUrl : string -> string + UrlError.

(** X1. For a document with a located header and a valid separator, the
    records returned are, in order, those of the lines after the separator
    read cell by cell: a line gives a record when it is a table row with as
    many cells as the header has names, its [Company] and
    [Short_Description] cells exist and are not the sentinel, and every URL
    cell that is neither empty nor the sentinel is accepted by the URL
    validation; the record then holds the cells, with URLs validated, tags
    split, trimmed and filtered, and the sentinel as absence. *)
Theorem records_read_cell_by_cell (fe : Frontend) (markdown_content : string)
    (pre : list string) (hdr sep : string) (rows : list string) :
  document_lines markdown_content = pre ++ hdr :: sep :: rows ->
  Forall (fun line => is_header_line line = false) pre ->
  is_header_line hdr = true ->
  is_separator sep = true ->
  companies (parse_markdown_table_to_objects HttpUrl fe markdown_content)
  = concat (line_records HttpUrl (parse_header hdr) <$> rows).
Proof.
  intros Hdoc Hpre Hhdr Hsep.
  unfold parse_markdown_table_to_objects. rewrite Hdoc.
  rewrite (parse_lines_table HttpUrl fe pre hdr sep rows Hpre Hhdr Hsep).
  apply companies_run_rows.
Qed.

Lemma process_line_without_line header idx st entry :
  process_line HttpUrl Streamlit header idx
    (mkExtraction (companies st) (without_line <$> issues st)) entry
  = let st' := process_line HttpUrl Camel header idx st entry in
    mkExtraction (companies st') (without_line <$> issues st').
Proof.
  destruct entry as [n line]. rewrite !process_line_unfold.
  destruct (negb (is_table_row line)); [reflexivity|].
  destruct (negb _).
  - unfold report. cbn [companies issues]. rewrite fmap_app. reflexivity.
  - destruct (CompanyData_new _ _); unfold report, append; cbn [companies issues].
    + reflexivity.
    + rewrite fmap_app. reflexivity.
Qed.

Lemma fold_without_line header idx entries st :
  fold_left (process_line HttpUrl Streamlit header idx) entries
    (mkExtraction (companies st) (without_line <$> issues st))
  = let st' := fold_left (process_line HttpUrl Camel header idx) entries st in
    mkExtraction (companies st') (without_line <$> issues st').
Proof.
  revert st. induction entries as [|e entries IH]; intros st; [reflexivity|].
  cbn [fold_left]. rewrite process_line_without_line. cbv zeta. apply IH.
Qed.

(** In the model the two copies differ in [row_line] only: the records are
    the same, and the reports are the same up to the line number of the rows
    that failed validation. *)
Lemma front_ends_agree (markdown_content : string) :
  let camel := parse_markdown_table_to_objects HttpUrl Camel markdown_content in
  let streamlit :=
    parse_markdown_table_to_objects HttpUrl Streamlit markdown_content in
  companies streamlit = companies camel
  /\ issues streamlit = without_line <$> issues camel.
Proof.
  cbv zeta. unfold parse_markdown_table_to_objects, parse_lines.
  destruct (find_header (document_lines markdown_content)) as [idx|];
    [|split; reflexivity].
  destruct (_ || _); [split; reflexivity|].
  pose proof (fold_without_line
                (parse_header (default "" (document_lines markdown_content !! idx)))
                idx
                (enumerate (drop (idx + 2) (document_lines markdown_content)))
                (mkExtraction [] [])) as H.
  cbn [companies issues fmap list_fmap] in H. cbv zeta in H.
  rewrite H. split; reflexivity.
Qed.

Lemma process_line_count fe header idx n line :
  let o := process_line HttpUrl fe header idx nothing (n, line) in
  length (companies o) + length (issues o) = if is_table_row line then 1 else 0.
Proof.
  cbv zeta. rewrite process_line_unfold.
  destruct (is_table_row line); [|reflexivity]. cbn [negb].
  destruct (negb _); [reflexivity|].
  destruct (CompanyData_new _ _); reflexivity.
Qed.

Lemma run_rows_count fe header idx start rows :
  let o := run_rows HttpUrl fe header idx start rows nothing in
  length (companies o) + length (issues o)
  = length (List.filter is_table_row rows).
Proof.
  cbv zeta. revert start. induction rows as [|r rows IH]; intros start.
  - reflexivity.
  - rewrite run_rows_cons. unfold followed_by. cbn [companies issues].
    rewrite !length_app.
    pose proof (process_line_count fe header idx start r) as H1.
    cbv zeta in H1. specialize (IH (S start)).
    cbn [List.filter]. destruct (is_table_row r); cbn [length]; lia.
Qed.

(** X3. For a document with a located header and a valid separator, every
    line after the separator that, once trimmed, starts and ends with [|]
    is accounted for exactly once, by a record or by a report, and no other
    line is: records and reports together are as many as these lines. *)
Theorem every_row_accounted_for (fe : Frontend) (markdown_content : string)
    (pre : list string) (hdr sep : string) (rows : list string) :
  document_lines markdown_content = pre ++ hdr :: sep :: rows ->
  Forall (fun line => is_header_line line = false) pre ->
  is_header_line hdr = true ->
  is_separator sep = true ->
  let result := parse_markdown_table_to_objects HttpUrl fe markdown_content in
  length (companies result) + length (issues result)
  = length (List.filter is_table_row rows).
Proof.
  intros Hdoc Hpre Hhdr Hsep. cbv zeta.
  unfold parse_markdown_table_to_objects. rewrite Hdoc.
  rewrite (parse_lines_table HttpUrl fe pre hdr sep rows Hpre Hhdr Hsep).
  apply run_rows_count.
Qed.

(** X4. Whatever the input, every record returned comes from one table
    row of the document: its [Company] and [Short_Description] are cells of
    that row, trimmed and not the sentinel; its location, when present, is
    such a cell too; its tags, when present, are the trimmed non-empty
    entries of a cell of the row; and every URL present is what the URL
    validation returned for a non-empty cell of the row. *)
Theorem extracted_records_clean (fe : Frontend) (markdown_content : string)
    (company : CompanyData) :
  company ∈ companies (parse_markdown_table_to_objects HttpUrl fe markdown_content) ->
  exists line,
    line ∈ document_lines markdown_content
    /\ is_table_row line = true
    /\ let cell v := v ∈ row_values line /\ strip v = v /\ v ∉ nan_spellings in
       cell (Company company)
       /\ cell (Short_Description company)
       /\ (forall location, Location company = Some location -> cell location)
       /\ (forall tags, Tags company = Some tags ->
             Forall (fun tag => strip tag = tag /\ tag <> "") tags
             /\ exists v, cell v /\ tags = trimmed_nonempty (split COMMA v))
       /\ (forall u,
             Some u ∈ [Company_Website company; YC_Link company;
                       Founder_Link_1 company; Founder_Link_2 company;
                       Founder_Link_3 company] ->
             exists v, cell v /\ v <> "" /\ HttpUrl v = inl u).
Proof.
  intros H. apply companies_from_rows in H as (header & line & Hline & Hrow & H).
  exists line. split; [exact Hline|]. split; [exact Hrow|].
  apply row_record_fields in H. cbv zeta in H.
  destruct H as (HC & HW & HY & HD & HT & HL & H1 & H2 & H3).
  assert (Hcell : forall name v,
            supplied header (row_values line) name = Some v ->
            v ∈ row_values line /\ strip v = v /\ v ∉ nan_spellings).
  { intros name v Hv. apply supplied_cell in Hv as [Hin Hnan].
    split; [exact Hin|].
    split; [exact (row_values_stripped _ _ Hin) | exact Hnan]. }
  assert (Hurl : forall name u,
            url_of HttpUrl (supplied header (row_values line) name) = Some (Some u) ->
            exists v, (v ∈ row_values line /\ strip v = v /\ v ∉ nan_spellings)
                      /\ v <> "" /\ HttpUrl v = inl u).
  { intros name u Hu. apply url_of_some in Hu as (v & Hv & Hne & Hu).
    exists v. split; [exact (Hcell _ _ Hv)|]. split; assumption. }
  split; [exact (Hcell _ _ HC)|]. split; [exact (Hcell _ _ HD)|].
  split; [|split].
  - intros location Hloc. rewrite Hloc in HL. symmetry in HL.
    exact (Hcell _ _ HL).
  - intros tags Htags. rewrite Htags in HT. unfold tags_of in HT.
    destruct (supplied header (row_values line) "Tags") as [v|] eqn:E;
      [|discriminate].
    injection HT as ->. split; [apply trimmed_nonempty_clean|].
    exists v. split; [exact (Hcell _ _ E) | reflexivity].
  - intros u Hu.
    repeat (apply elem_of_cons in Hu as [Hu|Hu];
            [rewrite <- Hu in *; eauto|]).
    inversion Hu.
Qed.

End ExtractorProperties.

(** ** Blanks around a line *)

Section Blanks.

Variable HttpUrl : string -> string + UrlError.
Variable fe : Frontend.

Lemma pipe_not_space : is_space PIPE = false.
Proof. reflexivity. Qed.

Lemma removelast_tail {A} (l : list A) : removelast (tail l) = tail (removelast l).
Proof. destruct l as [|x [|y l]]; reflexivity. Qed.

Lemma tail_split_lstrip s :
  tail (split PIPE (lstrip s)) = tail (split PIPE s).
Proof.
  induction s as [|c s IH]; [reflexivity|].
  destruct (is_space c) eqn:E.
  - rewrite lstrip_space by exact E. rewrite IH.
    assert (Hc : c <> PIPE) by (intros ->; discriminate E).
    destruct (split_cons_other PIPE c s Hc) as (x & xs & Hs & Hcs).
    rewrite Hcs, Hs. reflexivity.
  - rewrite lstrip_nonspace by exact E. reflexivity.
Qed.

(** A text that [rstrip] empties has no pipe: it is its own only segment. *)
Lemma split_blank s : rstrip s = "" -> split PIPE s = [s].
Proof.
  induction s as [|c s IH]; [reflexivity|].
  cbn [rstrip]. destruct (is_space c) eqn:E; cbn [andb]; [|discriminate].
  destruct (is_empty (rstrip s)) eqn:R; [|discriminate]. intros _.
  apply is_empty_true in R.
  assert (Hc : c <> PIPE) by (intros ->; discriminate E).
  destruct (split_cons_other PIPE c s Hc) as (x & xs & Hs & Hcs).
  rewrite Hcs. rewrite (IH R) in Hs. injection Hs as <- <-. reflexivity.
Qed.

Lemma removelast_split_rstrip s :
  removelast (split PIPE (rstrip s)) = removelast (split PIPE s).
Proof.
  induction s as [|c s IH]; [reflexivity|].
  destruct (is_space c && is_empty (rstrip s)) eqn:E.
  - assert (R : rstrip (String c s) = "") by (cbn [rstrip]; rewrite E; reflexivity).
    rewrite R, (split_blank _ R). reflexivity.
  - cbn [rstrip]. rewrite E.
    destruct (ascii_dec c PIPE) as [->|Hc].
    + rewrite !split_cons_sep.
      destruct (split PIPE (rstrip s)) as [|y ys] eqn:Hy;
        [exfalso; exact (split_nonempty _ _ Hy)|].
      destruct (split PIPE s) as [|x xs] eqn:Hx;
        [exfalso; exact (split_nonempty _ _ Hx)|].
      cbn [removelast] in *. rewrite IH. reflexivity.
    + destruct (split_cons_other PIPE c (rstrip s) Hc) as (y & ys & Hy & Hcy).
      destruct (split_cons_other PIPE c s Hc) as (x & xs & Hx & Hcx).
      rewrite Hcy, Hcx. rewrite Hy, Hx in IH.
      destruct ys as [|y' ys], xs as [|x' xs]; cbn [removelast] in *;
        try reflexivity; try discriminate IH.
      injection IH as -> IH. rewrite IH. reflexivity.
Qed.

(** The header names do not depend on the blanks around the header line. *)
Lemma parse_header_strip line : parse_header (strip line) = parse_header line.
Proof.
  unfold parse_header, slice_1_m1, strip. f_equal.
  rewrite removelast_tail, removelast_split_rstrip, <- removelast_tail.
  rewrite tail_split_lstrip. reflexivity.
Qed.

Lemma process_line_strip header idx st n line :
  process_line HttpUrl fe header idx st (n, strip line)
  = process_line HttpUrl fe header idx st (n, line).
Proof. unfold process_line. rewrite strip_idem. reflexivity. Qed.

Lemma find_header_from_strip i lines :
  find_header_from i (strip <$> lines) = find_header_from i lines.
Proof.
  revert i. induction lines as [|l lines IH]; intros i; [reflexivity|].
  cbn [fmap list_fmap find_header_from]. rewrite strip_idem, IH. reflexivity.
Qed.

Lemma fold_process_line_strip header idx k rows st :
  fold_left (process_line HttpUrl fe header idx)
    (enumerate_from k (strip <$> rows)) st
  = fold_left (process_line HttpUrl fe header idx) (enumerate_from k rows) st.
Proof.
  revert k st. induction rows as [|r rows IH]; intros k st; [reflexivity|].
  cbn [fmap list_fmap enumerate_from fold_left].
  rewrite process_line_strip. apply IH.
Qed.

Lemma parse_lines_strip lines :
  parse_lines HttpUrl fe (strip <$> lines) = parse_lines HttpUrl fe lines.
Proof.
  unfold parse_lines, find_header. rewrite find_header_from_strip.
  destruct (find_header_from 0 lines) as [idx|]; [|reflexivity].
  rewrite length_fmap, !list_lookup_fmap, <- fmap_drop.
  assert (H0 : parse_header (default "" (strip <$> lines !! idx))
               = parse_header (default "" (lines !! idx))).
  { destruct (lines !! idx); [apply parse_header_strip | reflexivity]. }
  assert (H1 : strip (default "" (strip <$> lines !! (idx + 1)))
               = strip (default "" (lines !! (idx + 1)))).
  { destruct (lines !! (idx + 1)); [apply strip_idem | reflexivity]. }
  rewrite H0, H1.
  destruct (_ || _); [reflexivity|].
  apply fold_process_line_strip.
Qed.

End Blanks.

Section MoreExtractorProperties.

Variable HttpUrl : string -> string + UrlError.

(** X5. Blanks around the lines of a document (indentation, trailing
    spaces, the CR of CR LF line ends) do not matter: two documents whose
    lines agree once trimmed give the same records and the same reports. *)
Theorem blanks_around_lines_ignored (fe : Frontend) (doc1 doc2 : string) :
  strip <$> document_lines doc1 = strip <$> document_lines doc2 ->
  parse_markdown_table_to_objects HttpUrl fe doc1
  = parse_markdown_table_to_objects HttpUrl fe doc2.
Proof.
  intros H. unfold parse_markdown_table_to_objects.
  rewrite <- (parse_lines_strip HttpUrl fe (document_lines doc1)), H.
  apply parse_lines_strip.
Qed.

Lemma fill_row_data_absent cells row_data key :
  key ∉ cells.*1 -> fill_row_data row_data cells !! key = row_data !! key.
Proof.
  revert row_data. induction cells as [|[h x] cells IH]; intros row_data Hk;
    [reflexivity|].
  cbn [fmap list_fmap fst] in Hk. apply not_elem_of_cons in Hk as [Hne Hk].
  cbn [fill_row_data fold_left].
  change (fold_left _ cells ?d) with (fill_row_data d cells).
  rewrite (IH _ Hk). apply lookup_insert_ne. congruence.
Qed.

Lemma fill_row_data_present cells row_data key v :
  NoDup cells.*1 -> (key, v) ∈ cells ->
  fill_row_data row_data cells !! key = Some (cell_value v).
Proof.
  revert row_data. induction cells as [|[h x] cells IH]; intros row_data Hnd Hin.
  - inversion Hin.
  - cbn [fmap list_fmap fst] in Hnd. apply NoDup_cons in Hnd as [Hh Hnd].
    cbn [fill_row_data fold_left].
    change (fold_left _ cells ?d) with (fill_row_data d cells).
    apply elem_of_cons in Hin as [[= -> ->]|Hin].
    + rewrite (fill_row_data_absent _ _ _ Hh). apply lookup_insert_eq.
    + apply (IH _ Hnd Hin).
Qed.

(** X6. Columns are matched by name, not by position: when the header
    names are distinct, moving the columns of the header and of the row in
    the same way leaves the dictionary of the row, hence the record or the
    errors, unchanged. *)
Theorem column_order_irrelevant (header values header' values' : list string) :
  NoDup (zip header values).*1 ->
  zip header values ≡ₚ zip header' values' ->
  make_row_data header values = make_row_data header' values'
  /\ CompanyData_new HttpUrl (make_row_data header values)
     = CompanyData_new HttpUrl (make_row_data header' values').
Proof.
  intros Hnd Hperm.
  assert (Heq : make_row_data header values = make_row_data header' values').
  { unfold make_row_data. apply map_eq. intros key.
    assert (Hnd' : NoDup (zip header' values').*1) by (rewrite <- Hperm; exact Hnd).
    destruct (decide (key ∈ (zip header values).*1)) as [Hin|Hout].
    - apply list_elem_of_fmap in Hin as ([k v] & -> & Hin). cbn [fst].
      rewrite (fill_row_data_present _ _ _ _ Hnd Hin).
      rewrite Hperm in Hin.
      rewrite (fill_row_data_present _ _ _ _ Hnd' Hin). reflexivity.
    - rewrite (fill_row_data_absent _ _ _ Hout).
      rewrite Hperm in Hout.
      rewrite (fill_row_data_absent _ _ _ Hout). reflexivity. }
  split; [exact Heq | rewrite Heq; reflexivity].
Qed.

Lemma cell_of_skip h1 v1 name x h2 v2 key :
  length h1 = length v1 -> key <> name ->
  cell_of (h1 ++ name :: h2) (v1 ++ x :: v2) key = cell_of (h1 ++ h2) (v1 ++ v2) key.
Proof.
  revert v1. induction h1 as [|h h1 IH]; intros [|v v1] Hlen Hkey;
    try discriminate Hlen.
  - cbn [app cell_of]. destruct (cell_of h2 v2 key) as [c|] eqn:E.
    + destruct h2, v2; cbn [cell_of] in *; congruence.
    + destruct (String.eqb_spec name key); [congruence|].
      destruct h2, v2; cbn [cell_of] in *; congruence.
  - cbn [app cell_of]. injection Hlen as Hlen. rewrite (IH _ Hlen Hkey).
    reflexivity.
Qed.

(** The model reads its nine keys and nothing else. *)
Lemma CompanyData_new_ext (kwargs kwargs' : gmap string PyVal) :
  (forall key, key ∈ field_names -> kwargs !! key = kwargs' !! key) ->
  CompanyData_new HttpUrl kwargs = CompanyData_new HttpUrl kwargs'.
Proof.
  intros H.
  unfold CompanyData_new, required_str, optional_url, optional_tags, optional_str.
  rewrite !H by (unfold field_names; set_solver). reflexivity.
Qed.

(** X7. A column whose name is not a field of the model is ignored: the
    row with the column, wherever it stands, and the row without it give
    the same record or the same errors. *)
Theorem unknown_column_ignored (h1 v1 : list string) (name x : string)
    (h2 v2 : list string) :
  length h1 = length v1 ->
  name ∉ field_names ->
  CompanyData_new HttpUrl (make_row_data (h1 ++ name :: h2) (v1 ++ x :: v2))
  = CompanyData_new HttpUrl (make_row_data (h1 ++ h2) (v1 ++ v2)).
Proof.
  intros Hlen Hname. apply CompanyData_new_ext. intros key Hkey.
  rewrite !make_row_data_lookup, cell_of_skip; [reflexivity | exact Hlen |].
  intros ->. contradiction.
Qed.

End MoreExtractorProperties.

(** ** The validators on their own *)

Section ValidatorProperties.

Variable HttpUrl : string -> string + UrlError.

Lemma trimmed_nonempty_fixed entries :
  Forall (fun tag => strip tag = tag /\ tag <> "") entries ->
  trimmed_nonempty entries = entries.
Proof.
  unfold trimmed_nonempty. induction 1 as [|x l [Hs Hne] _ IH]; [reflexivity|].
  cbn [fmap list_fmap List.filter]. rewrite Hs.
  apply is_empty_false in Hne. rewrite Hne. cbn [negb].
  f_equal. exact IH.
Qed.

(** X8. [split_tags] is idempotent through its list branch: the tags it
    returns, given back to it as a list (as when a record is read back from
    JSON), come out unchanged. *)
Theorem split_tags_idempotent (v : PyVal) (tags : list string) :
  split_tags v = Some tags -> split_tags (PyList tags) = Some tags.
Proof.
  intros H.
  assert (Hclean : Forall (fun tag => strip tag = tag /\ tag <> "") tags).
  { destruct v as [|s|l]; cbn [split_tags] in H; [discriminate| |].
    - destruct (String.eqb (lower s) "nan"); [discriminate|].
      injection H as <-. rewrite filter_then_strip. apply trimmed_nonempty_clean.
    - injection H as <-. rewrite filter_then_strip. apply trimmed_nonempty_clean. }
  cbn [split_tags]. rewrite filter_then_strip, (trimmed_nonempty_fixed _ Hclean).
  reflexivity.
Qed.

(** X9. [clean_url] never alters a value it keeps: it returns [None] or its
    argument as given (untrimmed); it returns [None] for a string exactly
    when the trimmed string is empty or a spelling of the sentinel; and
    applying it twice is applying it once. *)
Theorem clean_url_keeps_or_drops (v : PyVal) :
  (clean_url v = PyNone \/ clean_url v = v)
  /\ (forall s, v = PyStr s ->
        (clean_url v = PyNone <-> strip s = "" \/ strip s ∈ nan_spellings))
  /\ clean_url (clean_url v) = clean_url v.
Proof.
  split; [|split].
  - destruct v as [|s|l]; cbn [clean_url]; auto.
    destruct (_ || _); auto.
  - intros s ->. cbn [clean_url].
    destruct (String.eqb_spec (lower (strip s)) "nan") as [N|N]; cbn [orb].
    + split; [|reflexivity]. intros _. right. apply lower_nan_iff, N.
    + destruct (is_empty (strip s)) eqn:E.
      * split; [|reflexivity]. intros _. left. apply is_empty_true, E.
      * split; [discriminate|]. intros [H|H].
        -- apply is_empty_false in E. contradiction.
        -- apply lower_nan_iff in H. contradiction.
  - destruct v as [|s|l]; cbn [clean_url]; try reflexivity.
    destruct (_ || _) eqn:E; [reflexivity|]. cbn [clean_url]. rewrite E.
    reflexivity.
Qed.

(** What the loop stores under a key is [None] or a string, never a list. *)
Lemma make_row_data_values header values key x :
  make_row_data header values !! key = Some x ->
  x = PyNone \/ exists s, x = PyStr s.
Proof.
  rewrite make_row_data_lookup. destruct (cell_of header values key) as [v|];
    [|discriminate].
  cbn [fmap option_fmap option_map]. unfold cell_value. intros [= <-].
  destruct (String.eqb (lower v) "nan"); eauto.
Qed.

(** X11. A row is rejected only for a required field (whose column is
    missing or whose cell is the sentinel) or for a URL field whose cell
    the URL validation refuses, the error then being the one the validation
    gave for that cell: the errors of a row never concern [Tags] or
    [Location]. *)
Theorem rejection_reasons (header values : list string) :
  Forall (fun err =>
            (err.1 ∈ required_fields /\ err.2 ∈ [missing; string_type])
            \/ (err.1 ∈ url_fields
                /\ exists v why,
                     cell_of header values err.1 = Some v
                     /\ HttpUrl v = inr why
                     /\ err.2 = url_error why))
    (errors (CompanyData_new HttpUrl (make_row_data header values))).
Proof.
  set (d := make_row_data header values).
  set (P := fun err : FieldError =>
              (err.1 ∈ required_fields /\ err.2 ∈ [missing; string_type])
              \/ (err.1 ∈ url_fields
                  /\ exists v why,
                       cell_of header values err.1 = Some v
                       /\ HttpUrl v = inr why
                       /\ err.2 = url_error why)).
  assert (Hreq : forall key, key ∈ required_fields ->
                             Forall P (errors (required_str key d))).
  { intros key Hkey. unfold required_str.
    destruct (d !! key) as [[| |]|]; cbn [errors];
      [apply Forall_cons; split; [left|constructor]
      |constructor
      |apply Forall_cons; split; [left|constructor]
      |apply Forall_cons; split; [left|constructor]];
      (split; [exact Hkey | cbn [snd]; first [left | right; left]]). }
  assert (Hurl : forall key, key ∈ url_fields ->
                             Forall P (errors (optional_url HttpUrl key d))).
  { intros key Hkey. unfold optional_url, d. rewrite make_row_data_lookup.
    destruct (cell_of header values key) as [v|] eqn:E; [|constructor].
    cbn [fmap option_fmap option_map]. unfold cell_value.
    destruct (String.eqb (lower v) "nan"); [constructor|].
    cbn [clean_url]. destruct (_ || _); [constructor|].
    destruct (HttpUrl v) as [u|why] eqn:U; cbn [errors]; [constructor|].
    apply Forall_cons; split; [|constructor].
    right. split; [exact Hkey|]. exists v, why. repeat split; assumption. }
  assert (Hloc : errors (optional_str "Location" d) = []).
  { unfold optional_str. destruct (d !! "Location") as [x|] eqn:E; [|reflexivity].
    destruct (make_row_data_values _ _ _ _ E) as [->|[s ->]]; reflexivity. }
  rewrite CompanyData_new_errors, optional_tags_errors, Hloc.
  unfold required_fields, url_fields in *.
  repeat apply Forall_app_2; try constructor;
    first [apply Hreq | apply Hurl];
    repeat first [left | right].
Qed.

End ValidatorProperties.

(** ** The located header and the reports *)

Section HeaderAndReports.

Variable HttpUrl : string -> string + UrlError.

Lemma startswith_rstrip p s :
  startswith p (rstrip s) = true -> startswith p s = true.
Proof.
  revert p. induction s as [|c s IH]; intros p; [trivial|].
  cbn [rstrip]. destruct (is_space c && is_empty (rstrip s)).
  - destruct p; [reflexivity | discriminate].
  - destruct p as [|a p]; [reflexivity|]. cbn [startswith].
    destruct (ascii_dec a c); [apply IH | discriminate].
Qed.

Lemma startswith_app p s :
  startswith p s = true -> exists r, s = (p +:+ r)%stdpp.
Proof.
  revert s. induction p as [|a p IH]; intros s H.
  - exists s. reflexivity.
  - destruct s as [|c s]; [discriminate|]. cbn [startswith] in H.
    destruct (ascii_dec a c) as [->|]; [|discriminate].
    destruct (IH _ H) as [r ->]. exists r. reflexivity.
Qed.

(** A segment, the separator, and the rest. *)
Lemma split_segment sep w s :
  split sep w = [w] ->
  split sep (w +:+ String sep s)%stdpp = w :: split sep s.
Proof.
  induction w as [|c w IH]; intros Hw.
  - apply split_cons_sep.
  - destruct (ascii_dec c sep) as [->|Hc].
    + rewrite split_cons_sep in Hw. discriminate Hw.
    + destruct (split_cons_other sep c w Hc) as (x & xs & Hx & Hcx).
      rewrite Hcx in Hw. injection Hw as -> ->.
      change (String c w +:+ String sep s)%stdpp
        with (String c (w +:+ String sep s))%stdpp.
      destruct (split_cons_other sep c (w +:+ String sep s)%stdpp Hc)
        as (y & ys & Hy & Hcy).
      rewrite Hcy. rewrite (IH Hx) in Hy. injection Hy as <- <-. reflexivity.
Qed.

Lemma cell_of_head h header v values : is_Some (cell_of (h :: header) (v :: values) h).
Proof.
  cbn [cell_of]. destruct (cell_of header values h); [eauto|].
  rewrite String.eqb_refl. eauto.
Qed.

(** X10. The header the first loop locates always has [Company] as its
    first column name.  Hence a row with as many cells as the header has
    names always supplies the [Company] key: the model never reports
    [Company] as missing (it refuses it only when the cell is the
    sentinel). *)
Theorem located_header_starts_with_company (line : string) :
  is_header_line line = true ->
  (exists names, parse_header line = "Company" :: names)
  /\ (forall values,
        length values = length (parse_header line) ->
        ("Company", missing)
        ∉ errors (CompanyData_new HttpUrl
                    (make_row_data (parse_header line) values))).
Proof.
  intros H.
  assert (Hnames : exists names, parse_header line = "Company" :: names).
  { unfold is_header_line, strip in H.
    apply startswith_rstrip, startswith_app in H as [r Hr].
    unfold parse_header, slice_1_m1. rewrite <- tail_split_lstrip, Hr.
    change ("| Company |" +:+ r)%stdpp
      with (String "|" (" Company " +:+ String PIPE r))%stdpp.
    rewrite split_cons_sep, split_segment by reflexivity. cbn [tail].
    destruct (split PIPE r) as [|x xs] eqn:E;
      [exfalso; exact (split_nonempty _ _ E)|].
    cbn [removelast]. eexists. cbn [fmap list_fmap]. f_equal. }
  split; [exact Hnames|].
  destruct Hnames as [names Hnames]. rewrite Hnames.
  intros [|v values] Hlen Hin; [discriminate Hlen|].
  pose proof (CompanyData_new_error_fields HttpUrl
                (make_row_data ("Company" :: names) (v :: values))) as Hf.
  rewrite Forall_forall in Hf. destruct (Hf _ Hin) as [E|[E|E]].
  - unfold required_str in E. rewrite make_row_data_lookup in E.
    destruct (cell_of_head "Company" names v values) as [c Hc]. rewrite Hc in E.
    cbn [fmap option_fmap option_map] in E. unfold cell_value in E.
    destruct (String.eqb (lower c) "nan"); cbn [errors] in E.
    + apply list_elem_of_singleton in E. discriminate E.
    + inversion E.
  - pose proof (required_str_errors "Short_Description"
                  (make_row_data ("Company" :: names) (v :: values))) as HS.
    rewrite Forall_forall in HS. apply HS in E. discriminate E.
  - cbn [fst] in E.
    repeat (apply elem_of_cons in E as [E|E]; [discriminate E|]).
    inversion E.
Qed.

Lemma CompanyData_new_inr_nonempty kwargs e :
  CompanyData_new HttpUrl kwargs = inr e -> e <> [].
Proof.
  intros H ->.
  destruct (CompanyData_new_no_errors HttpUrl kwargs) as [c Hc].
  - rewrite H. reflexivity.
  - congruence.
Qed.

Lemma issues_run_rows fe header idx start rows issue :
  issue ∈ issues (run_rows HttpUrl fe header idx start rows nothing) ->
  exists k line,
    rows !! k = Some line /\
    issue ∈ issues (process_line HttpUrl fe header idx nothing (start + k, line)).
Proof.
  revert start. induction rows as [|r rows IH]; intros start H.
  - inversion H.
  - rewrite run_rows_cons in H. unfold followed_by in H. cbn [issues] in H.
    apply elem_of_app in H as [H|H].
    + exists 0, r. rewrite Nat.add_0_r. split; [reflexivity | exact H].
    + destruct (IH _ H) as (k & line & Hk & Hi).
      exists (S k), line. split; [exact Hk|].
      replace (start + S k) with (S start + k) by lia. exact Hi.
Qed.

(** X12. Every report of a located table cites a line of the stripped
    document that stands after the separator and is a table row: a
    column-count report carries the line's 1-based number, the header's
    count, the line's own count (which differs) and its trimmed text; a
    validation report carries the trimmed text and the non-empty errors the
    model returned for that row (and, in the Camel copy, the number). *)
Theorem reports_cite_their_line (fe : Frontend) (markdown_content : string)
    (pre : list string) (hdr sep : string) (rows : list string)
    (issue : RowIssue) :
  document_lines markdown_content = pre ++ hdr :: sep :: rows ->
  Forall (fun line => is_header_line line = false) pre ->
  is_header_line hdr = true ->
  is_separator sep = true ->
  issue ∈ issues (parse_markdown_table_to_objects HttpUrl fe markdown_content) ->
  exists n line,
    document_lines markdown_content !! (n - 1) = Some line
    /\ length pre + 2 < n
    /\ is_table_row line = true
    /\ ((issue = ColumnCountMismatch n (length (parse_header hdr))
                   (length (row_values line)) (strip line)
         /\ length (row_values line) <> length (parse_header hdr))
        \/ (exists e,
              issue = RowValidationFailed (row_line fe n) (strip line) e
              /\ e <> []
              /\ length (row_values line) = length (parse_header hdr)
              /\ CompanyData_new HttpUrl
                   (make_row_data (parse_header hdr) (row_values line))
                 = inr e)).
Proof.
  intros Hdoc Hpre Hhdr Hsep Hin.
  unfold parse_markdown_table_to_objects in Hin. rewrite Hdoc in Hin.
  rewrite (parse_lines_table HttpUrl fe pre hdr sep rows Hpre Hhdr Hsep) in Hin.
  apply issues_run_rows in Hin as (k & line & Hk & Hi).
  exists (length pre + 2 + k + 1), line.
  split; [|split; [lia|]].
  - rewrite Hdoc.
    replace (length pre + 2 + k + 1 - 1) with (length (pre ++ [hdr; sep]) + k)
      by (rewrite length_app; cbn [length]; lia).
    replace (pre ++ hdr :: sep :: rows) with ((pre ++ [hdr; sep]) ++ rows)
      by (rewrite <- app_assoc; reflexivity).
    rewrite lookup_app_r by lia.
    replace (length (pre ++ [hdr; sep]) + k - length (pre ++ [hdr; sep]))
      with k by lia.
    exact Hk.
  - cbn [Nat.add] in Hi. rewrite process_line_unfold in Hi.
    destruct (is_table_row line); cbn [negb] in Hi; [|inversion Hi].
    split; [reflexivity|].
    destruct (length (row_values line) =? length (parse_header hdr)) eqn:L;
      cbn [negb] in Hi.
    + apply Nat.eqb_eq in L.
      destruct (CompanyData_new _ _) as [c|e] eqn:E; [inversion Hi|].
      apply list_elem_of_singleton in Hi. right. exists e.
      split; [exact Hi|]. split; [exact (CompanyData_new_inr_nonempty _ _ E)|].
      split; [exact L | reflexivity].
    + apply Nat.eqb_neq in L. apply list_elem_of_singleton in Hi.
      left. split; assumption.
Qed.

End HeaderAndReports.

Example clean_filename_ex :
  clean_filename "https://www.example.com/a/b.html?x=1" = "www_example_com_a_b_html_x=1"
  /\ clean_filename "http:" = "converted"
  /\ clean_filename "file:///tmp/report.pdf" = "tmp_report_pdf"
  /\ clean_filename "notes" = "notes".
Proof. repeat split. Qed.

Example final_uri_of_ex :
  final_uri_of " /tmp/a.pdf " = (Some "file:///tmp/a.pdf", [AssumingLocalPath])
  /\ final_uri_of "ftp://x" = (None, [InvalidScheme])
  /\ final_uri_of "" = (None, [NoInput])
  /\ read_uri " EXIT " = Leave
  /\ read_uri "/tmp/a.pdf" = Query "file:///tmp/a.pdf".
Proof. repeat split. Qed.

(** * The file names and the URIs of the two front ends *)

Section FileNames.

Lemma first_chars_length n s : String.length (first_chars n s) <= n.
Proof.
  revert s. induction n as [|n IH]; intros [|c s]; cbn [first_chars String.length];
    try lia.
  specialize (IH s). lia.
Qed.

Lemma first_chars_all n s : String.length s <= n -> first_chars n s = s.
Proof.
  revert s. induction n as [|n IH]; intros [|c s]; cbn [first_chars String.length];
    intros H; try reflexivity; try lia.
  rewrite IH by lia. reflexivity.
Qed.

Lemma first_chars_unproblematic n s :
  unproblematic s -> unproblematic (first_chars n s).
Proof.
  unfold unproblematic. revert s.
  induction n as [|n IH]; intros [|c s] H; cbn [first_chars list_ascii_of_string];
    try constructor.
  - cbn [list_ascii_of_string] in H. apply Forall_cons in H as [H _]. exact H.
  - cbn [list_ascii_of_string] in H. apply Forall_cons in H as [_ H].
    apply IH, H.
Qed.

Lemma replace_runs_unproblematic in_run s :
  unproblematic (replace_runs in_run s).
Proof.
  unfold unproblematic. revert in_run.
  induction s as [|c s IH]; intros in_run; cbn [replace_runs]; [constructor|].
  destruct (is_problematic c) eqn:E.
  - destruct in_run; [apply IH|].
    cbn [list_ascii_of_string]. constructor; [reflexivity | apply IH].
  - cbn [list_ascii_of_string]. constructor; [exact E | apply IH].
Qed.

Lemma replace_runs_fixed in_run s :
  unproblematic s -> replace_runs in_run s = s.
Proof.
  unfold unproblematic. revert in_run.
  induction s as [|c s IH]; intros in_run H; [reflexivity|].
  cbn [list_ascii_of_string] in H. apply Forall_cons in H as [Hc H].
  cbn [replace_runs]. rewrite Hc, (IH _ H). reflexivity.
Qed.

Lemma after_prefix_app p s rest :
  after_prefix p s = Some rest -> s = (p +:+ rest)%stdpp.
Proof.
  revert s. induction p as [|a p IH]; intros s H.
  - injection H as ->. reflexivity.
  - destruct s as [|b s]; [discriminate|]. cbn [after_prefix] in H.
    destruct (ascii_dec a b) as [->|]; [|discriminate].
    rewrite (IH _ H). reflexivity.
Qed.

(** A name without a colon carries no scheme to remove. *)
Lemma remove_scheme_fixed name : unproblematic name -> remove_scheme name = name.
Proof.
  intros H.
  assert (Hno : forall p rest,
            ":"%char ∈ list_ascii_of_string p ->
            after_prefix p name = Some rest -> False).
  { intros p rest Hp Hr. apply after_prefix_app in Hr. subst name.
    unfold unproblematic in H. rewrite Forall_forall in H.
    assert (Hin : ":"%char ∈ list_ascii_of_string (p +:+ rest)%stdpp).
    { clear H. induction p as [|a p IH]; [inversion Hp|].
      cbn [list_ascii_of_string] in Hp.
      change (String a p +:+ rest)%stdpp with (String a (p +:+ rest))%stdpp.
      cbn [list_ascii_of_string].
      apply elem_of_cons in Hp as [<-|Hp]; [left | right; apply IH, Hp]. }
    specialize (H _ Hin). discriminate H. }
  unfold remove_scheme.
  assert (Hnone : forall p, ":"%char ∈ list_ascii_of_string p ->
                            after_prefix p name = None).
  { intros p Hp. destruct (after_prefix p name) eqn:E; [|reflexivity].
    exfalso. exact (Hno _ _ Hp E). }
  rewrite !Hnone; [reflexivity|..];
    cbn [list_ascii_of_string]; repeat first [left | right].
Qed.

(** X13. [clean_filename] always returns a usable file name: not empty, of
    at most 100 characters, and free of the characters the second pattern
    lists (the path separator and the dot among them).  It is idempotent: a
    cleaned name is left as it is. *)
Theorem clean_filename_safe (filename : string) :
  clean_filename filename <> ""
  /\ String.length (clean_filename filename) <= 100
  /\ unproblematic (clean_filename filename)
  /\ clean_filename (clean_filename filename) = clean_filename filename.
Proof.
  assert (H : clean_filename filename <> ""
              /\ String.length (clean_filename filename) <= 100
              /\ unproblematic (clean_filename filename)).
  { unfold clean_filename. cbv zeta.
    set (name := first_chars 100 (replace_runs false (remove_scheme filename))).
    assert (Hlen : String.length name <= 100) by apply first_chars_length.
    assert (Hok : unproblematic name)
      by apply first_chars_unproblematic, replace_runs_unproblematic.
    destruct (is_empty name) eqn:E.
    - split; [discriminate|]. split; [cbn; lia|]. repeat constructor.
    - apply is_empty_false in E. split; [exact E|]. split; assumption. }
  destruct H as (Hne & Hlen & Hok). repeat split; try assumption.
  set (name := clean_filename filename) in *.
  unfold clean_filename at 1. cbv zeta.
  rewrite (remove_scheme_fixed _ Hok), (replace_runs_fixed _ _ Hok),
          (first_chars_all _ _ Hlen).
  apply is_empty_false in Hne. rewrite Hne. reflexivity.
Qed.

End FileNames.

Section Uris.

Lemma lower_char_e c : lower_char c = "e"%char -> c = "e"%char \/ c = "E"%char.
Proof.
  destruct c as [[] [] [] [] [] [] [] []]; vm_compute; intros H;
    first [discriminate H | left; reflexivity | right; reflexivity].
Qed.

Lemma lower_exit_head t :
  lower t = "exit" ->
  exists c rest, t = String c rest /\ (c = "e"%char \/ c = "E"%char).
Proof.
  destruct t as [|c rest]; cbn [lower]; [discriminate|].
  intros [= H _]. exists c, rest. split; [reflexivity | apply lower_char_e, H].
Qed.

(** A text that starts with a slash starts with no scheme. *)
Lemma slash_no_scheme t :
  startswith "/" t = true ->
  startswith "file://" t = false /\ is_valid_uri_scheme t = false
  /\ lower t <> "exit" /\ t <> "".
Proof.
  destruct t as [|c rest]; [discriminate|]. cbn [startswith].
  destruct (ascii_dec "/" c) as [<-|]; [|discriminate]. intros _.
  repeat split; try reflexivity; [|discriminate].
  intros H. apply lower_exit_head in H as (c & r & [= <- _] & [H|H]);
    discriminate H.
Qed.

(** A text with a supported scheme does not start with a slash and is not
    the word that ends the session. *)
Lemma scheme_no_slash t :
  is_valid_uri_scheme t = true ->
  startswith "/" t = false /\ lower t <> "exit" /\ t <> "".
Proof.
  unfold is_valid_uri_scheme. intros H.
  destruct t as [|c rest]; [discriminate H|].
  assert (Hc : c = "h"%char \/ c = "f"%char \/ c = "d"%char).
  { cbn [startswith] in H.
    destruct (ascii_dec "h" c); [auto|].
    destruct (ascii_dec "f" c); [auto|].
    destruct (ascii_dec "d" c); [auto|]. discriminate H. }
  split; [|split; [|discriminate]].
  - cbn [startswith]. destruct (ascii_dec "/" c) as [<-|]; [|reflexivity].
    destruct Hc as [Hc|[Hc|Hc]]; discriminate Hc.
  - intros E. apply lower_exit_head in E as (c' & r & [= <- _] & [E|E]);
      subst c; destruct Hc as [Hc|[Hc|Hc]]; discriminate Hc.
Qed.

(** X14. Every URI the page hands to the converter is non-empty and has
    one of the four supported schemes; it is the trimmed input, or, for an
    input that starts with a slash, the trimmed input behind [file://],
    shown with the notice that a local path is assumed. *)
Theorem accepted_uri_has_scheme (input_uri u : string) (notices : list UriNotice) :
  final_uri_of input_uri = (Some u, notices) ->
  is_valid_uri_scheme u = true
  /\ u <> ""
  /\ ((u = strip input_uri /\ notices = [])
      \/ (u = ("file://" +:+ strip input_uri)%stdpp
          /\ startswith "/" (strip input_uri) = true
          /\ notices = [AssumingLocalPath])).
Proof.
  unfold final_uri_of. destruct (is_empty input_uri); [discriminate|].
  destruct (is_valid_uri_scheme (strip input_uri)) eqn:V; cbn [negb].
  - intros [= <- <-]. split; [exact V|].
    split; [exact (proj2 (proj2 (scheme_no_slash _ V)))|]. left. split; reflexivity.
  - destruct (startswith "/" (strip input_uri)) eqn:S; [|discriminate].
    intros [= <- <-]. split; [reflexivity|]. split; [discriminate|].
    right. repeat split. 
Qed.

(** X15. The prompt never queries the agent for an empty URI nor for one
    that starts with a slash: a typed absolute path always goes out behind
    [file://] (the test that it does not already start with [file://] can
    never fail), anything else goes out trimmed. *)
Theorem query_uri_shape (typed u : string) :
  read_uri typed = Query u ->
  u <> ""
  /\ startswith "/" u = false
  /\ lower (strip typed) <> "exit"
  /\ u = (if startswith "/" (strip typed)
          then ("file://" +:+ strip typed)%stdpp else strip typed).
Proof.
  unfold read_uri. cbv zeta.
  destruct (String.eqb_spec (lower (strip typed)) "exit") as [|Hexit];
    [discriminate|].
  destruct (is_empty (strip typed)) eqn:E; [discriminate|].
  apply is_empty_false in E.
  destruct (startswith "/" (strip typed)) eqn:S; cbn [andb].
  - destruct (slash_no_scheme _ S) as (F & _). rewrite F. cbn [negb].
    intros [= <-]. repeat split; [discriminate | exact Hexit].
  - intros [= <-]. repeat split; assumption.
Qed.

(** X16. The two front ends agree on the URIs the page accepts: whatever
    the page hands to the converter for an input, the prompt sends to the
    agent for the same input. *)
Theorem front_ends_pass_same_uri (input u : string) (notices : list UriNotice) :
  final_uri_of input = (Some u, notices) -> read_uri input = Query u.
Proof.
  unfold final_uri_of, read_uri. cbv zeta.
  destruct (is_empty input); [discriminate|].
  destruct (is_valid_uri_scheme (strip input)) eqn:V; cbn [negb].
  - intros [= <- _].
    destruct (scheme_no_slash _ V) as (S & Hexit & Hne).
    apply String.eqb_neq in Hexit. apply is_empty_false in Hne.
    rewrite Hexit, Hne, S. reflexivity.
  - destruct (startswith "/" (strip input)) eqn:S; [|discriminate].
    intros [= <- _].
    destruct (slash_no_scheme _ S) as (F & _ & Hexit & Hne).
    apply String.eqb_neq in Hexit. apply is_empty_false in Hne.
    rewrite Hexit, Hne, F. reflexivity.
Qed.

End Uris.

(** * The further properties on the sample documents *)

Lemma records_read_cell_by_cell_witness :
  document_lines doc_bad_url =
    [] ++ full_header :: full_separator :: [acme_row; bad_url_row; beta_row]
  /\ is_header_line full_header = true
  /\ is_separator full_separator = true
  /\ companies (parse_markdown_table_to_objects sample_HttpUrl Camel doc_bad_url)
     = concat (line_records sample_HttpUrl (parse_header full_header)
                 <$> [acme_row; bad_url_row; beta_row]).
Proof.
  split; [reflexivity|]. split; [reflexivity|]. split; [reflexivity|].
  apply (records_read_cell_by_cell sample_HttpUrl Camel doc_bad_url []
           full_header full_separator [acme_row; bad_url_row; beta_row]).
  - reflexivity.
  - constructor.
  - reflexivity.
  - reflexivity.
Defined.

Lemma every_row_accounted_for_witness :
  document_lines doc_two_tables =
    [] ++ full_header :: full_separator
       :: [acme_row; ""; "## S24"; full_header; full_separator; beta_row]
  /\ is_header_line full_header = true
  /\ is_separator full_separator = true
  /\ (let result :=
        parse_markdown_table_to_objects sample_HttpUrl Streamlit doc_two_tables in
      length (companies result) + length (issues result)
      = length (List.filter is_table_row
                  [acme_row; ""; "## S24"; full_header; full_separator; beta_row])).
Proof.
  split; [reflexivity|]. split; [reflexivity|]. split; [reflexivity|].
  apply (every_row_accounted_for sample_HttpUrl Streamlit doc_two_tables []
           full_header full_separator
           [acme_row; ""; "## S24"; full_header; full_separator; beta_row]).
  - reflexivity.
  - constructor.
  - reflexivity.
  - reflexivity.
Defined.

Lemma extracted_records_clean_witness :
  acme ∈ companies (parse_markdown_table_to_objects sample_HttpUrl Camel scenario1)
  /\ exists line,
      line ∈ document_lines scenario1
      /\ is_table_row line = true
      /\ let cell v := v ∈ row_values line /\ strip v = v /\ v ∉ nan_spellings in
         cell (Company acme)
         /\ cell (Short_Description acme)
         /\ (forall location, Location acme = Some location -> cell location)
         /\ (forall tags, Tags acme = Some tags ->
               Forall (fun tag => strip tag = tag /\ tag <> "") tags
               /\ exists v, cell v /\ tags = trimmed_nonempty (split COMMA v))
         /\ (forall u,
               Some u ∈ [Company_Website acme; YC_Link acme; Founder_Link_1 acme;
                         Founder_Link_2 acme; Founder_Link_3 acme] ->
               exists v, cell v /\ v <> "" /\ sample_HttpUrl v = inl u).
Proof.
  assert (H : acme ∈ companies
                (parse_markdown_table_to_objects sample_HttpUrl Camel scenario1))
    by (vm_compute; left).
  split; [exact H|].
  exact (extracted_records_clean sample_HttpUrl Camel scenario1 acme H).
Defined.

Lemma blanks_around_lines_ignored_witness :
  strip <$> document_lines scenario1_crlf = strip <$> document_lines scenario1
  /\ parse_markdown_table_to_objects sample_HttpUrl Camel scenario1_crlf
     = parse_markdown_table_to_objects sample_HttpUrl Camel scenario1.
Proof.
  split; [vm_compute; reflexivity|].
  apply (blanks_around_lines_ignored sample_HttpUrl Camel scenario1_crlf scenario1).
  vm_compute. reflexivity.
Defined.

Lemma column_order_irrelevant_witness :
  NoDup (zip ["Company"; "Tags"; "Short_Description"] ["Acme"; "b2b"; "Widgets"]).*1
  /\ zip ["Company"; "Tags"; "Short_Description"] ["Acme"; "b2b"; "Widgets"]
     ≡ₚ zip ["Tags"; "Company"; "Short_Description"] ["b2b"; "Acme"; "Widgets"]
  /\ (make_row_data ["Company"; "Tags"; "Short_Description"]
        ["Acme"; "b2b"; "Widgets"]
      = make_row_data ["Tags"; "Company"; "Short_Description"]
          ["b2b"; "Acme"; "Widgets"]
      /\ CompanyData_new sample_HttpUrl
           (make_row_data ["Company"; "Tags"; "Short_Description"]
              ["Acme"; "b2b"; "Widgets"])
         = CompanyData_new sample_HttpUrl
             (make_row_data ["Tags"; "Company"; "Short_Description"]
                ["b2b"; "Acme"; "Widgets"])).
Proof.
  assert (Hnd : NoDup (zip ["Company"; "Tags"; "Short_Description"]
                           ["Acme"; "b2b"; "Widgets"]).*1).
  { cbn. repeat (apply NoDup_cons_2;
                   [repeat (apply not_elem_of_cons; split; [discriminate|]);
                    apply not_elem_of_nil|]).
    apply NoDup_nil_2. }
  assert (Hperm : zip ["Company"; "Tags"; "Short_Description"]
                      ["Acme"; "b2b"; "Widgets"]
                  ≡ₚ zip ["Tags"; "Company"; "Short_Description"]
                       ["b2b"; "Acme"; "Widgets"])
    by (cbn; apply perm_swap).
  split; [exact Hnd|]. split; [exact Hperm|].
  exact (column_order_irrelevant sample_HttpUrl _ _ _ _ Hnd Hperm).
Defined.

Lemma unknown_column_ignored_witness :
  length ["Company"] = length ["Acme"]
  /\ ("Batch" ∉ field_names)
  /\ CompanyData_new sample_HttpUrl
       (make_row_data (["Company"] ++ "Batch" :: ["Short_Description"])
          (["Acme"] ++ "W24" :: ["Widgets"]))
     = CompanyData_new sample_HttpUrl
         (make_row_data (["Company"] ++ ["Short_Description"])
            (["Acme"] ++ ["Widgets"])).
Proof.
  assert (Hname : "Batch" ∉ field_names).
  { unfold field_names.
    repeat (apply not_elem_of_cons; split; [discriminate|]).
    apply not_elem_of_nil. }
  split; [reflexivity|]. split; [exact Hname|].
  exact (unknown_column_ignored sample_HttpUrl ["Company"] ["Acme"] "Batch" "W24"
           ["Short_Description"] ["Widgets"] eq_refl Hname).
Defined.

Lemma split_tags_idempotent_witness :
  split_tags (PyStr " ai,, fintech ") = Some ["ai"; "fintech"]
  /\ split_tags (PyList ["ai"; "fintech"]) = Some ["ai"; "fintech"].
Proof.
  split; [reflexivity|].
  apply (split_tags_idempotent (PyStr " ai,, fintech ") ["ai"; "fintech"]).
  reflexivity.
Defined.

Lemma located_header_starts_with_company_witness :
  is_header_line ("   " +:+ small_header)%stdpp = true
  /\ ((exists names,
         parse_header ("   " +:+ small_header)%stdpp = "Company" :: names)
      /\ (forall values,
            length values = length (parse_header ("   " +:+ small_header)%stdpp) ->
            ("Company", missing)
            ∉ errors (CompanyData_new sample_HttpUrl
                        (make_row_data
                           (parse_header ("   " +:+ small_header)%stdpp) values)))).
Proof.
  split; [reflexivity|].
  apply (located_header_starts_with_company sample_HttpUrl
           ("   " +:+ small_header)%stdpp).
  reflexivity.
Defined.

Lemma reports_cite_their_line_witness :
  document_lines doc_bad_url =
    [] ++ full_header :: full_separator :: [acme_row; bad_url_row; beta_row]
  /\ is_header_line full_header = true
  /\ is_separator full_separator = true
  /\ RowValidationFailed (Some 4) bad_url_row [("Company_Website", url_error url_parsing)]
     ∈ issues (parse_markdown_table_to_objects sample_HttpUrl Camel doc_bad_url)
  /\ exists n line,
      document_lines doc_bad_url !! (n - 1) = Some line
      /\ length ([] : list string) + 2 < n
      /\ is_table_row line = true
      /\ ((RowValidationFailed (Some 4) bad_url_row
             [("Company_Website", url_error url_parsing)]
           = ColumnCountMismatch n (length (parse_header full_header))
               (length (row_values line)) (strip line)
           /\ length (row_values line) <> length (parse_header full_header))
          \/ (exists e,
                RowValidationFailed (Some 4) bad_url_row
                  [("Company_Website", url_error url_parsing)]
                = RowValidationFailed (row_line Camel n) (strip line) e
                /\ e <> []
                /\ length (row_values line) = length (parse_header full_header)
                /\ CompanyData_new sample_HttpUrl
                     (make_row_data (parse_header full_header) (row_values line))
                   = inr e)).
Proof.
  assert (Hin : RowValidationFailed (Some 4) bad_url_row
                  [("Company_Website", url_error url_parsing)]
                ∈ issues (parse_markdown_table_to_objects sample_HttpUrl Camel
                            doc_bad_url))
    by (vm_compute; left).
  split; [reflexivity|]. split; [reflexivity|]. split; [reflexivity|].
  split; [exact Hin|].
  apply (reports_cite_their_line sample_HttpUrl Camel doc_bad_url []
           full_header full_separator [acme_row; bad_url_row; beta_row]).
  - reflexivity.
  - constructor.
  - reflexivity.
  - reflexivity.
  - exact Hin.
Defined.

Lemma accepted_uri_has_scheme_witness :
  final_uri_of " /tmp/a.pdf " = (Some "file:///tmp/a.pdf", [AssumingLocalPath])
  /\ is_valid_uri_scheme "file:///tmp/a.pdf" = true
  /\ "file:///tmp/a.pdf" <> ""
  /\ (("file:///tmp/a.pdf" = strip " /tmp/a.pdf " /\ [AssumingLocalPath] = [])
      \/ ("file:///tmp/a.pdf" = ("file://" +:+ strip " /tmp/a.pdf ")%stdpp
          /\ startswith "/" (strip " /tmp/a.pdf ") = true
          /\ [AssumingLocalPath] = [AssumingLocalPath])).
Proof.
  split; [reflexivity|].
  apply (accepted_uri_has_scheme " /tmp/a.pdf " "file:///tmp/a.pdf"
           [AssumingLocalPath]).
  reflexivity.
Defined.

Lemma query_uri_shape_witness :
  read_uri "  /home/user/report.pdf" = Query "file:///home/user/report.pdf"
  /\ "file:///home/user/report.pdf" <> ""
  /\ startswith "/" "file:///home/user/report.pdf" = false
  /\ lower (strip "  /home/user/report.pdf") <> "exit"
  /\ "file:///home/user/report.pdf"
     = (if startswith "/" (strip "  /home/user/report.pdf")
        then ("file://" +:+ strip "  /home/user/report.pdf")%stdpp
        else strip "  /home/user/report.pdf").
Proof.
  split; [reflexivity|].
  apply (query_uri_shape "  /home/user/report.pdf" "file:///home/user/report.pdf").
  reflexivity.
Defined.

Lemma front_ends_pass_same_uri_witness :
  final_uri_of "https://example.com/a.html " = (Some "https://example.com/a.html", [])
  /\ read_uri "https://example.com/a.html " = Query "https://example.com/a.html".
Proof.
  split; [reflexivity|].
  apply (front_ends_pass_same_uri "https://example.com/a.html "
           "https://example.com/a.html" []).
  reflexivity.
Defined.

(** * The shape of the errors and of the header names *)

Section Shapes.

Variable HttpUrl : string -> string + UrlError.

Lemma required_str_error_names name kwargs :
  sublist (errors (required_str name kwargs)).*1 [name].
Proof.
  unfold required_str. destruct (kwargs !! name) as [[| |]|]; cbn;
    first [reflexivity | apply sublist_nil_l].
Qed.

Lemma optional_str_error_names name kwargs :
  sublist (errors (optional_str name kwargs)).*1 [name].
Proof.
  unfold optional_str. destruct (kwargs !! name) as [[| |]|]; cbn;
    first [reflexivity | apply sublist_nil_l].
Qed.

Lemma optional_url_error_names name kwargs :
  sublist (errors (optional_url HttpUrl name kwargs)).*1 [name].
Proof.
  unfold optional_url. destruct (kwargs !! name) as [v|]; [|apply sublist_nil_l].
  destruct (clean_url v); [apply sublist_nil_l| |reflexivity].
  destruct (HttpUrl s); cbn; first [reflexivity | apply sublist_nil_l].
Qed.

(** X17. A validation error names each field at most once, in the order
    in which the model declares its fields, whatever is supplied. *)
Theorem errors_in_field_order (kwargs : gmap string PyVal) :
  sublist (errors (CompanyData_new HttpUrl kwargs)).*1 field_names.
Proof.
  rewrite CompanyData_new_errors, optional_tags_errors, !fmap_app.
  change field_names
    with (["Company"] ++ ["Company_Website"] ++ ["YC_Link"]
          ++ ["Short_Description"] ++ ["Tags"] ++ ["Location"]
          ++ ["Founder_Link_1"] ++ ["Founder_Link_2"] ++ ["Founder_Link_3"]).
  repeat apply sublist_app;
    first [apply required_str_error_names
          | apply optional_url_error_names
          | apply optional_str_error_names
          | apply sublist_nil_l].
Qed.

Lemma split_segments_free sep s :
  Forall (fun segment => sep ∉ list_ascii_of_string segment) (split sep s).
Proof.
  induction s as [|c s IH].
  - repeat constructor. cbn. apply not_elem_of_nil.
  - destruct (ascii_dec c sep) as [->|Hc].
    + rewrite split_cons_sep. constructor; [apply not_elem_of_nil | exact IH].
    + destruct (split_cons_other sep c s Hc) as (x & xs & Hs & Hcs).
      rewrite Hcs. rewrite Hs in IH. apply Forall_cons in IH as [Hx Hxs].
      constructor; [|exact Hxs]. cbn [list_ascii_of_string].
      apply not_elem_of_cons. split; [congruence | exact Hx].
Qed.

Lemma lstrip_chars c s :
  c ∈ list_ascii_of_string (lstrip s) -> c ∈ list_ascii_of_string s.
Proof.
  induction s as [|a s IH]; [trivial|]. cbn [lstrip].
  destruct (is_space a); [|trivial]. intros H. right. apply IH, H.
Qed.

Lemma rstrip_chars c s :
  c ∈ list_ascii_of_string (rstrip s) -> c ∈ list_ascii_of_string s.
Proof.
  induction s as [|a s IH]; [trivial|]. cbn [rstrip].
  destruct (is_space a && is_empty (rstrip s)); [intros H; inversion H|].
  cbn [list_ascii_of_string]. intros H.
  apply elem_of_cons in H as [->|H]; [left | right; apply IH, H].
Qed.

Lemma replace_chars a b c s :
  c ∈ list_ascii_of_string (replace a b s) ->
  c = b \/ (c <> a /\ c ∈ list_ascii_of_string s).
Proof.
  induction s as [|x s IH]; cbn [replace list_ascii_of_string]; intros H.
  - inversion H.
  - apply elem_of_cons in H as [->|H].
    + destruct (ascii_dec x a) as [|Hx]; [left; reflexivity|].
      right. split; [exact Hx | left].
    + destruct (IH H) as [->|[Hc Hin]]; [left; reflexivity|].
      right. split; [exact Hc | right; exact Hin].
Qed.

Lemma elem_of_slice_1_m1 {A} (x : A) l : x ∈ slice_1_m1 l -> x ∈ l.
Proof.
  unfold slice_1_m1. intros H.
  assert (Ht : x ∈ tail l).
  { clear -H. induction (tail l) as [|y t IH]; [inversion H|].
    destruct t as [|z t]; [inversion H|].
    cbn [removelast] in H. apply elem_of_cons in H as [->|H];
      [left | right; apply IH, H]. }
  destruct l; [inversion Ht | right; exact Ht].
Qed.

(** X18. The column names read off a header line contain neither a space
    nor a bar: spaces inside a header cell become underscores, so that
    [Founder Link 1] names the field [Founder_Link_1]. *)
Theorem header_names_plain (line : string) :
  Forall (fun name => (" "%char ∉ list_ascii_of_string name)
                      /\ (PIPE ∉ list_ascii_of_string name))
         (parse_header line).
Proof.
  unfold parse_header. apply Forall_forall. intros name H.
  apply list_elem_of_fmap in H as (h & -> & Hh).
  apply elem_of_slice_1_m1 in Hh.
  pose proof (proj1 (Forall_forall _ _) (split_segments_free PIPE line) h Hh) as Hfree.
  split; intros Hin; apply replace_chars in Hin as [Hin|[Hne Hin]];
    try discriminate Hin; try congruence.
  apply Hfree. unfold strip in Hin. apply lstrip_chars, rstrip_chars, Hin.
Qed.

End Shapes.


Example ftp_url_rejected_for_its_scheme :
  parse_markdown_table_to_objects sample_HttpUrl Camel
    (join LF [full_header; full_separator;
              "| Acme | ftp://acme.com | | Widgets | | | | | |"])
  = mkExtraction []
      [RowValidationFailed (Some 3) "| Acme | ftp://acme.com | | Widgets | | | | | |"
         [("Company_Website", url_error url_scheme)]].
Proof. vm_compute. reflexivity. Qed.
